(** * capnpy.blob: the base reader of a Cap'n Proto object

    A shallow embedding of [capnpy/blob.py] (class [Blob]) and the
    properties of its field readers.

    Conventions of the embedding

    - a Python [str] buffer is a [list byte];
    - Python integers are [Z]; bit operations on them are the ones of [Z]
      (two's complement on an unbounded integer, as in Python);
    - a method that can raise returns a [result]: [OK v] or [Raise e];
      Python's [None] is [None] of an [option];
    - object identity of the buffer and of the segment table is equality of
      the values stored in the record: no operation of the reader writes to
      either of them. *)

From Stdlib Require Import String Ascii ZArith List Bool Lia Relations.
From Stdlib Require Import Init.Byte.
Import ListNotations.
Local Open Scope Z_scope.

(** ** Exceptions and results *)

(** The [assert] statements of blob.py, one constructor per statement. *)
Inductive assertion : Type :=
| offset_lt_len_buf        (* from_buffer:       assert self._offset < len(self._buf) *)
| size_tag_eq_SIZE_8       (* _read_string/data: assert size_tag == ListPtr.SIZE_8 *)
| kind_eq_StructPtr_KIND   (* _deref_ptrstruct:  assert ptr.kind == StructPtr.KIND *)
| kind_eq_ListPtr_KIND     (* _deref_ptrlist:    assert ptr.kind == ListPtr.KIND *)
| unknown_pointer_kind.    (* _follow_generic_pointer: assert False, 'Unkwown pointer kind' *)

(** The exceptions the reader can raise. *)
Inductive exn : Type :=
| StructError                      (* struct.error, raised by struct.unpack_from *)
| OverflowError                    (* an offset that does not fit a C ssize_t *)
| AssertionError (a : assertion)   (* a failed assert of blob.py *)
| ValueError                       (* Ptr.specialize on the reserved kind *)
| IndexError.                      (* subscript out of range *)

Inductive result (A : Type) : Type :=
| OK (v : A)
| Raise (e : exn).

Arguments OK {A} v.
Arguments Raise {A} e.

Definition bind {A B : Type} (r : result A) (k : A -> result B) : result B :=
  match r with
  | OK v => k v
  | Raise e => Raise e
  end.

Notation "x <- r ;; k" := (bind r (fun x => k))
  (at level 61, r at next level, right associativity).

(** [assert cond] of Python, with the statement that failed. *)
Definition py_assert (cond : bool) (a : assertion) : result unit :=
  if cond then OK tt else Raise (AssertionError a).

(** ** Buffers *)

Definition buffer := list byte.

Definition len (buf : buffer) : Z := Z.of_nat (length buf).

Definition byte_val (b : byte) : Z := Z.of_N (Byte.to_N b).

(** [buf[start:end]] of Python on a sequence: a negative index counts from
    the end, and both indices are clamped to [0, len(buf)]. *)
Definition slice_index (n i : Z) : Z :=
  if i <? 0 then Z.max 0 (i + n) else Z.min i n.

Definition py_slice (buf : buffer) (start stop : Z) : buffer :=
  let s := slice_index (len buf) start in
  let e := slice_index (len buf) stop in
  firstn (Z.to_nat (e - s)) (skipn (Z.to_nat s) buf).

(** ** struct.unpack_from *)

(** Little-endian value of a byte string. *)
Fixpoint le_unsigned (bs : list byte) : Z :=
  match bs with
  | [] => 0
  | b :: rest => byte_val b + 256 * le_unsigned rest
  end.

(** Two's complement reading of an unsigned value of [n] bytes. *)
Definition to_signed (n : Z) (u : Z) : Z :=
  if u <? 2 ^ (8 * n - 1) then u else u - 2 ^ (8 * n).

(** Modelled from the spec: [capnpy.type.Types], the table of primitive
    types with their [struct] format characters, is not part of the
    sources at hand.  The specification describes a primitive read by its
    width and its signedness or float-ness; the format characters are the
    ones of Python's [struct] module for these widths. *)
Module Types.
Inductive t : Type :=
| int8 | uint8 | int16 | uint16 | int32 | uint32 | int64 | uint64
| float32 | float64.
End Types.

Definition fmt (t : Types.t) : ascii :=
  match t with
  | Types.int8 => "b" | Types.uint8 => "B" | Types.int16 => "h" | Types.uint16 => "H"
  | Types.int32 => "i" | Types.uint32 => "I" | Types.int64 => "q" | Types.uint64 => "Q"
  | Types.float32 => "f" | Types.float64 => "d"
  end%char.

(** [struct.calcsize('<' + t.fmt)] *)
Definition calcsize (t : Types.t) : Z :=
  match t with
  | Types.int8 | Types.uint8 => 1
  | Types.int16 | Types.uint16 => 2
  | Types.int32 | Types.uint32 | Types.float32 => 4
  | Types.int64 | Types.uint64 | Types.float64 => 8
  end.

(** A float is kept as its IEEE 754 bit pattern. *)
Inductive float_bits : Type := Float (width : Z) (bits : Z).

(** The Python value a format produces. *)
Definition value (t : Types.t) : Type :=
  match t with
  | Types.float32 | Types.float64 => float_bits
  | _ => Z
  end.

(** The little-endian value of the [calcsize t] bytes [bs] under [t]. *)
Definition decode (t : Types.t) (bs : list byte) : value t :=
  match t return value t with
  | Types.int8 => to_signed 1 (le_unsigned bs)
  | Types.uint8 => le_unsigned bs
  | Types.int16 => to_signed 2 (le_unsigned bs)
  | Types.uint16 => le_unsigned bs
  | Types.int32 => to_signed 4 (le_unsigned bs)
  | Types.uint32 => le_unsigned bs
  | Types.int64 => to_signed 8 (le_unsigned bs)
  | Types.uint64 => le_unsigned bs
  | Types.float32 => Float 4 (le_unsigned bs)
  | Types.float64 => Float 8 (le_unsigned bs)
  end.

(** The [n] bytes of [buf] from position [pos] on. *)
Definition window (buf : buffer) (pos n : Z) : list byte :=
  firstn (Z.to_nat n) (skipn (Z.to_nat pos) buf).

(** The position an offset denotes for [struct.unpack_from]: a negative
    offset counts from the end of the buffer. *)
Definition py_position (buf : buffer) (offset : Z) : Z :=
  if offset <? 0 then offset + len buf else offset.

(** An integer that fits a C [ssize_t]. *)
Definition fits_ssize_t (z : Z) : bool := (- 2 ^ 63 <=? z) && (z <? 2 ^ 63).

(** [struct.unpack_from('<' + t.fmt, buf, offset)[0]].  The call converts
    the offset to a C [ssize_t] and raises [OverflowError] when it does
    not fit; it raises [struct.error] when the position is before the
    buffer or when fewer than [calcsize] bytes are left from the position
    on.  A Python buffer is shorter than [2^63] bytes, so an offset that
    does not fit never denotes bytes of the buffer: the bytes are looked
    for first, and the offset tells the two exceptions apart
    ([unpack_from_ssize_t] below gives the conversion first). *)
Definition unpack_from (t : Types.t) (buf : buffer) (offset : Z) : result (value t) :=
  let pos := py_position buf offset in
  if (pos <? 0) || (len buf - pos <? calcsize t)
  then Raise (if fits_ssize_t offset then StructError else OverflowError)
  else OK (decode t (window buf pos (calcsize t))).

(** ** Pointers *)

(** Bits [lo, lo+n) of a Python integer. *)
Definition bits (w : Z) (lo n : Z) : Z := Z.land (Z.shiftr w lo) (Z.ones n).

(** Modelled from the spec: the module [capnpy.ptr] (classes [Ptr],
    [StructPtr], [ListPtr], [FarPtr]) is not part of the sources at hand.
    A pointer is the 64-bit word read from the buffer together with the
    class it has been specialized to; the fields are cut out of the word
    as the wire layout of the specification lays them out. *)
Inductive ptr_class : Type := Ptr_ | StructPtr_ | ListPtr_ | FarPtr_.

Record ptr : Type := { ptr_cls : ptr_class; word : Z }.

Module StructPtr.
Definition KIND : Z := 0.
(** bits [32:48): data word count; bits [48:64): pointer word count *)
Definition data_size (p : ptr) : Z := bits (word p) 32 16.
Definition ptrs_size (p : ptr) : Z := bits (word p) 48 16.
End StructPtr.

Module ListPtr.
Definition KIND : Z := 1.
(** size tags, in the order Void, Bit, Byte1, Byte2, Byte4, Byte8,
    Pointer, Composite *)
Definition SIZE_8 : Z := 2.
(** bits [32:35): size tag; bits [35:64): element count *)
Definition size_tag (p : ptr) : Z := bits (word p) 32 3.
Definition item_count (p : ptr) : Z := bits (word p) 35 29.
End ListPtr.

Module FarPtr.
Definition KIND : Z := 2.
(** bit 2: double-far flag; bits [3:32): word offset in the target
    segment; bits [32:64): segment id *)
Definition landing_pad (p : ptr) : Z := bits (word p) 2 1.
Definition offset (p : ptr) : Z := bits (word p) 3 29.
Definition target (p : ptr) : Z := bits (word p) 32 32.
End FarPtr.

Module Ptr.
(** bits [0:2) select the kind *)
Definition kind (p : ptr) : Z := Z.land (word p) 3.

(** bits [2:32): the signed word offset of a struct or list pointer *)
Definition offset (p : ptr) : Z :=
  match ptr_cls p with
  | FarPtr_ => FarPtr.offset p
  | _ => let u := bits (word p) 2 30 in
         if u <? 2 ^ 29 then u else u - 2 ^ 30
  end.

(** The offset of the object pointed to, for a pointer read at [offset]:
    the displacement is counted in words from the word that follows the
    pointer. *)
Definition deref (p : ptr) (offset_ : Z) : Z := offset_ + (offset p + 1) * 8.

(** The pointer as an instance of the class of its kind; the reserved
    kind is refused. *)
Definition specialize (p : ptr) : result ptr :=
  let k := kind p in
  if k =? StructPtr.KIND then OK {| ptr_cls := StructPtr_; word := word p |}
  else if k =? ListPtr.KIND then OK {| ptr_cls := ListPtr_; word := word p |}
  else if k =? FarPtr.KIND then OK {| ptr_cls := FarPtr_; word := word p |}
  else Raise ValueError.
End Ptr.

(** ** Blob *)

(** Python classes are known by their names. *)
Definition pyclass := string.

Record Blob : Type := {
  cls : pyclass;
  _buf : buffer;
  _offset : Z;
  _segment_offsets : list Z
}.

Definition from_buffer (c : pyclass) (buf : buffer) (offset : Z)
    (segment_offsets : list Z) : result Blob :=
  _ <- py_assert (offset <? len buf) offset_lt_len_buf ;;
  OK {| cls := c; _buf := buf; _offset := offset;
        _segment_offsets := segment_offsets |}.

Definition _read_primitive (self : Blob) (offset : Z) (t : Types.t) : result (value t) :=
  unpack_from t (_buf self) (_offset self + offset).

Definition _read_bit (self : Blob) (offset : Z) (bitmask : Z) : result bool :=
  val <- _read_primitive self offset Types.uint8 ;;
  OK (negb (Z.land val bitmask =? 0)).

Definition _read_ptr (self : Blob) (offset : Z) : result ptr :=
  p <- _read_primitive self offset Types.int64 ;;
  OK {| ptr_cls := Ptr_; word := p |}.

Definition _read_group (self : Blob) (groupcls : pyclass) : result Blob :=
  from_buffer groupcls (_buf self) (_offset self) (_segment_offsets self).

(** Modelled from the spec: the enum classes handed to [_read_enum] (module
    [capnpy.enum]) are not part of the sources at hand.  An enum type is a
    name and the list of its variants; calling it on a code wraps the code,
    whether or not it names a variant: a code out of range is the valid
    state of an unknown variant, left to the caller. *)
Record enumtype : Type := { enum_name : string; enum_members : list string }.

Record enum : Type := { enum_type : enumtype; enum_code : Z }.

Definition enum_new (e : enumtype) (val : Z) : enum :=
  {| enum_type := e; enum_code := val |}.

(** The variant a code names, [None] for the unknown state. *)
Definition enum_variant (v : enum) : option string :=
  if enum_code v <? 0 then None
  else nth_error (enum_members (enum_type v)) (Z.to_nat (enum_code v)).

Definition _read_enum (self : Blob) (offset : Z) (e : enumtype) : result enum :=
  val <- _read_primitive self offset Types.int16 ;;
  OK (enum_new e val).

(** Modelled from the spec: [capnpy.list.List] and
    [capnpy.struct_.GenericStruct] are not part of the sources at hand.
    Both are accessors: a [Blob] built by [from_buffer] from the buffer,
    the absolute offset and the segment table, which also records the
    sizes handed over by the pointer that led to it. *)
Record List : Type := {
  list_blob : Blob;
  _size_tag : Z;
  _item_count : Z;
  _item_type : pyclass
}.

Record GenericStruct : Type := {
  struct_blob : Blob;
  _data_size : Z;
  _ptrs_size : Z
}.

Definition List_from_buffer (c : pyclass) (buf : buffer) (offset : Z)
    (segment_offsets : list Z) (size_tag item_count : Z)
    (item_type : pyclass) : result List :=
  self <- from_buffer c buf offset segment_offsets ;;
  OK {| list_blob := self; _size_tag := size_tag;
        _item_count := item_count; _item_type := item_type |}.

Definition from_buffer_and_size (buf : buffer) (offset : Z)
    (segment_offsets : list Z) (data_size ptrs_size : Z) : result GenericStruct :=
  self <- from_buffer "GenericStruct"%string buf offset segment_offsets ;;
  OK {| struct_blob := self; _data_size := data_size; _ptrs_size := ptrs_size |}.

(** What [_follow_generic_pointer] returns. *)
Inductive generic : Type :=
| GStruct (s : GenericStruct)
| GList (l : List).

Definition _follow_generic_pointer (self : Blob) (ptr_offset : Z)
    : result (option generic) :=
  p <- _read_ptr self ptr_offset ;;
  if word p =? 0 then OK None
  else
    p <- Ptr.specialize p ;;
    let blob_offet := Ptr.deref p ptr_offset in
    if Ptr.kind p =? StructPtr.KIND then
      s <- from_buffer_and_size (_buf self) (_offset self + blob_offet)
             (_segment_offsets self)
             (StructPtr.data_size p) (StructPtr.ptrs_size p) ;;
      OK (Some (GStruct s))
    else if Ptr.kind p =? ListPtr.KIND then
      l <- List_from_buffer "List"%string (_buf self) (_offset self + blob_offet)
             (_segment_offsets self)
             (ListPtr.size_tag p) (ListPtr.item_count p) "Blob"%string ;;
      OK (Some (GList l))
    else
      Raise (AssertionError unknown_pointer_kind).

(** ** Readers that follow far pointers *)

Section FarPointers.

(** [FarPtr.follow(blob)]: the pointer a far pointer refers to, with the
    offset it was read at.  The method belongs to [capnpy.ptr]; the
    readers below are stated for every implementation of it. *)
Variable follow : ptr -> Blob -> result (Z * ptr).

Definition _deref_ptrstruct (self : Blob) (offset : Z) : result (option Z) :=
  p <- _read_ptr self offset ;;
  if word p =? 0 then OK None
  else
    op <- (if Ptr.kind p =? FarPtr.KIND then
             p <- Ptr.specialize p ;;
             follow p self
           else OK (offset, p)) ;;
    let (offset, p) := op : Z * ptr in
    _ <- py_assert (Ptr.kind p =? StructPtr.KIND) kind_eq_StructPtr_KIND ;;
    OK (Some (Ptr.deref p offset)).

(** The triple [(offset, size_tag, item_count)], [None] standing for
    [(None, None, None)]. *)
Definition _deref_ptrlist (self : Blob) (offset : Z) : result (option (Z * Z * Z)) :=
  p <- _read_ptr self offset ;;
  if word p =? 0 then OK None
  else
    op <- (if Ptr.kind p =? FarPtr.KIND then
             p <- Ptr.specialize p ;;
             follow p self
           else OK (offset, p)) ;;
    let (offset, p) := op : Z * ptr in
    _ <- py_assert (Ptr.kind p =? ListPtr.KIND) kind_eq_ListPtr_KIND ;;
    p <- Ptr.specialize p ;;
    let offset := Ptr.deref p offset in
    OK (Some (offset, ListPtr.size_tag p, ListPtr.item_count p)).

Definition _read_struct (self : Blob) (offset : Z) (structcls : pyclass)
    : result (option Blob) :=
  struct_offset <- _deref_ptrstruct self offset ;;
  match struct_offset with
  | None => OK None
  | Some struct_offset =>
      b <- from_buffer structcls (_buf self) (_offset self + struct_offset)
             (_segment_offsets self) ;;
      OK (Some b)
  end.

Definition _read_list (self : Blob) (offset : Z) (listcls : pyclass)
    (item_type : pyclass) : result (option List) :=
  d <- _deref_ptrlist self offset ;;
  match d with
  | None => OK None
  | Some (offset, size_tag, item_count) =>
      l <- List_from_buffer listcls (_buf self) (_offset self + offset)
             (_segment_offsets self) size_tag item_count item_type ;;
      OK (Some l)
  end.

Definition _read_string (self : Blob) (offset : Z) : result (option buffer) :=
  d <- _deref_ptrlist self offset ;;
  match d with
  | None => OK None
  | Some (offset, size_tag, item_count) =>
      _ <- py_assert (size_tag =? ListPtr.SIZE_8) size_tag_eq_SIZE_8 ;;
      let start := _offset self + offset in
      let end_ := start + item_count - 1 in
      OK (Some (py_slice (_buf self) start end_))
  end.

Definition _read_data (self : Blob) (offset : Z) : result (option buffer) :=
  d <- _deref_ptrlist self offset ;;
  match d with
  | None => OK None
  | Some (offset, size_tag, item_count) =>
      _ <- py_assert (size_tag =? ListPtr.SIZE_8) size_tag_eq_SIZE_8 ;;
      let start := _offset self + offset in
      let end_ := start + item_count in
      OK (Some (py_slice (_buf self) start end_))
  end.

End FarPointers.

(** Modelled from the spec: [FarPtr.follow] of [capnpy.ptr] is not part of
    the sources at hand.  The segment id is looked up in the segment table
    (out of range: an error); the landing pad is at the segment's base plus
    the far pointer's word offset; the word read there is the real struct or
    list pointer.  Offsets are handed back as the readers use them, relative
    to the accessor.  A double-far landing pad holds a far-style word that
    gives the segment and word offset where the content begins, followed by
    the real pointer with a relative offset of zero. *)
Definition FarPtr_follow (far : ptr) (blob : Blob) : result (Z * ptr) :=
  match nth_error (_segment_offsets blob) (Z.to_nat (FarPtr.target far)) with
  | None => Raise IndexError
  | Some segment_start =>
      let offset := segment_start + FarPtr.offset far * 8 - _offset blob in
      p <- _read_ptr blob offset ;;
      if FarPtr.landing_pad far =? 0 then OK (offset, p)
      else
        match nth_error (_segment_offsets blob) (Z.to_nat (FarPtr.target p)) with
        | None => Raise IndexError
        | Some content_segment =>
            let content := content_segment + FarPtr.offset p * 8 - _offset blob in
            tag <- _read_ptr blob (offset + 8) ;;
            if (Ptr.kind tag =? StructPtr.KIND) || (Ptr.kind tag =? ListPtr.KIND)
            then OK (content - 8, tag)
            else Raise ValueError
        end
  end.

(** ** Sample messages *)

Import Byte.

(** A list pointer (offset 0, one-byte elements, 3 elements) followed by
    the text "hi" with its terminator and the padding of the word. *)
Definition msg_hi : buffer :=
  [x01; x00; x00; x00; x1a; x00; x00; x00;
   x68; x69; x00; x00; x00; x00; x00; x00].

(** A struct of one data word and one pointer: the pointer is a list
    pointer (one-byte elements, 0 elements) whose offset of -2 words
    leads back to the first byte of the buffer. *)
Definition msg_empty_at_0 : buffer :=
  [x70; x61; x79; x6c; x6f; x61; x64; x21;
   xf9; xff; xff; xff; x02; x00; x00; x00].

(** A far pointer (segment 0, word 1) to a landing pad that holds a struct
    pointer (offset 0, one data word), followed by the data word. *)
Definition msg_far : buffer :=
  [x0a; x00; x00; x00; x00; x00; x00; x00;
   x00; x00; x00; x00; x01; x00; x00; x00;
   x2a; x00; x00; x00; x00; x00; x00; x00].

(** A list pointer (offset 0, one-byte elements, 0 elements) followed by
    a word that does not belong to the list. *)
Definition msg_empty_list : buffer :=
  [x01; x00; x00; x00; x02; x00; x00; x00;
   x2a; x00; x00; x00; x00; x00; x00; x00].

(** The list pointer of [msg_hi] in a buffer that ends after the first
    byte of the list body. *)
Definition msg_truncated : buffer :=
  [x01; x00; x00; x00; x1a; x00; x00; x00; x68].

(** A list pointer (offset 0, two-byte elements, 3 elements) followed by
    the three elements and the padding of the word. *)
Definition msg_shorts : buffer :=
  [x01; x00; x00; x00; x1b; x00; x00; x00;
   x01; x00; x02; x00; x03; x00; x00; x00].

(** A far pointer (segment 0, word 1) whose landing pad holds another
    far pointer (segment 0, word 2), followed by a struct pointer. *)
Definition msg_far_far : buffer :=
  [x0a; x00; x00; x00; x00; x00; x00; x00;
   x12; x00; x00; x00; x00; x00; x00; x00;
   x00; x00; x00; x00; x01; x00; x00; x00].

(** A message that ends with the list pointer of an empty list of
    one-byte elements (offset 0, 0 elements): the list body starts where
    the buffer ends. *)
Definition msg_empty_list_at_end : buffer :=
  [x2a; x00; x00; x00; x00; x00; x00; x00;
   x01; x00; x00; x00; x02; x00; x00; x00].

Definition blob_at (buf : buffer) (offset : Z) : Blob :=
  {| cls := "Blob"%string; _buf := buf; _offset := offset; _segment_offsets := [0] |}.

(** An enum of two variants. *)
Definition Color : enumtype :=
  {| enum_name := "Color"; enum_members := ["red"; "green"] |}%string.

(** ** Accessors derived from an accessor *)

(** [derived follow self b]: the accessor [b] is the result of a field
    read on the accessor [self] (a struct read, a list read, a group
    read, or a generic pointer followed to a struct or to a list). *)
Inductive derived (follow : ptr -> Blob -> result (Z * ptr)) (self : Blob)
    : Blob -> Prop :=
| derived_struct (offset : Z) (structcls : pyclass) (b : Blob) :
    _read_struct follow self offset structcls = OK (Some b) ->
    derived follow self b
| derived_list (offset : Z) (listcls item_type : pyclass) (l : List) :
    _read_list follow self offset listcls item_type = OK (Some l) ->
    derived follow self (list_blob l)
| derived_group (groupcls : pyclass) (b : Blob) :
    _read_group self groupcls = OK b ->
    derived follow self b
| derived_generic_struct (ptr_offset : Z) (s : GenericStruct) :
    _follow_generic_pointer self ptr_offset = OK (Some (GStruct s)) ->
    derived follow self (struct_blob s)
| derived_generic_list (ptr_offset : Z) (l : List) :
    _follow_generic_pointer self ptr_offset = OK (Some (GList l)) ->
    derived follow self (list_blob l).

(** * Properties *)

(** ** Results *)

Lemma bind_inv {A B : Type} (r : result A) (k : A -> result B) (w : B) :
  bind r k = OK w -> exists v, r = OK v /\ k v = OK w.
Proof.
  destruct r as [v | e]; simpl; intros H.
  - exists v. split; [reflexivity | exact H].
  - discriminate H.
Qed.

Lemma py_assert_true (c : bool) (a : assertion) :
  c = true -> py_assert c a = OK tt.
Proof. intros ->. reflexivity. Qed.

Lemma py_assert_false (c : bool) (a : assertion) :
  c = false -> py_assert c a = Raise (AssertionError a).
Proof. intros ->. reflexivity. Qed.

(** ** Buffers and windows *)

Lemma len_nonneg (buf : buffer) : 0 <= len buf.
Proof. unfold len. lia. Qed.

Lemma window_length (buf : buffer) (pos n : Z) :
  0 <= pos -> 0 <= n -> pos + n <= len buf ->
  length (window buf pos n) = Z.to_nat n.
Proof.
  unfold window, len. intros Hpos Hn Hfit.
  rewrite length_firstn, length_skipn. lia.
Qed.

(** A window of full length lies inside the buffer. *)
Lemma window_full_fits (buf : buffer) (pos n : Z) :
  0 <= pos -> 0 < n -> length (window buf pos n) = Z.to_nat n ->
  pos + n <= len buf.
Proof.
  unfold window, len. intros Hpos Hn.
  rewrite length_firstn, length_skipn. lia.
Qed.

(** The bytes of a window are the bytes of the buffer at the same
    positions: nothing outside of the buffer is read. *)
Lemma window_nth_error (buf : buffer) (pos n : Z) (i : nat) :
  0 <= pos -> (i < Z.to_nat n)%nat ->
  nth_error (window buf pos n) i = nth_error buf (Z.to_nat pos + i).
Proof.
  unfold window. intros Hpos Hi.
  rewrite nth_error_firstn.
  destruct (Nat.ltb_spec i (Z.to_nat n)) as [_ | Hge]; [| lia].
  apply nth_error_skipn.
Qed.

(** ** Little-endian values *)

Lemma byte_val_range (b : byte) : 0 <= byte_val b < 256.
Proof.
  unfold byte_val. pose proof (Byte.to_N_bounded b) as H. lia.
Qed.

Lemma le_unsigned_range (bs : list byte) :
  0 <= le_unsigned bs < 256 ^ Z.of_nat (length bs).
Proof.
  induction bs as [| b rest IH].
  - simpl. lia.
  - cbn [le_unsigned length]. rewrite Nat2Z.inj_succ, Z.pow_succ_r by lia.
    pose proof (byte_val_range b). lia.
Qed.

Lemma to_signed_range (n u : Z) :
  0 < n -> 0 <= u < 256 ^ n ->
  - 2 ^ (8 * n - 1) <= to_signed n u < 2 ^ (8 * n - 1).
Proof.
  intros Hn Hu. unfold to_signed.
  assert (E : 256 ^ n = 2 ^ (8 * n)).
  { change 256 with (2 ^ 8). rewrite <- Z.pow_mul_r by lia. reflexivity. }
  assert (D : 2 ^ (8 * n) = 2 * 2 ^ (8 * n - 1)).
  { rewrite <- Z.pow_succ_r by lia. f_equal. lia. }
  destruct (Z.ltb_spec u (2 ^ (8 * n - 1))); lia.
Qed.

(** The only word that reads as zero is the word of zero bytes. *)
Lemma le_unsigned_zero (bs : list byte) :
  le_unsigned bs = 0 <-> Forall (fun b => b = x00) bs.
Proof.
  induction bs as [| b rest IH]; cbn [le_unsigned].
  - split; [constructor | reflexivity].
  - pose proof (byte_val_range b) as Hb.
    pose proof (le_unsigned_range rest) as Hr.
    split.
    + intros H.
      assert (Hb0 : byte_val b = 0) by lia.
      assert (Hr0 : le_unsigned rest = 0) by lia.
      constructor; [| apply IH; exact Hr0].
      unfold byte_val in Hb0.
      assert (E : Byte.to_N b = Byte.to_N x00) by (simpl; lia).
      pose proof (Byte.of_to_N b) as Hof. rewrite E in Hof.
      rewrite Byte.of_to_N in Hof. congruence.
    + intros H. inversion H as [| ? ? Hb0 Hrest]; subst.
      apply IH in Hrest. rewrite Hrest. reflexivity.
Qed.

Lemma to_signed_zero (n u : Z) :
  0 < n -> 0 <= u < 256 ^ n -> (to_signed n u = 0 <-> u = 0).
Proof.
  intros Hn Hu. unfold to_signed.
  assert (E : 256 ^ n = 2 ^ (8 * n)).
  { change 256 with (2 ^ 8). rewrite <- Z.pow_mul_r by lia. reflexivity. }
  assert (P : 0 < 2 ^ (8 * n - 1)) by (apply Z.pow_pos_nonneg; lia).
  destruct (Z.ltb_spec u (2 ^ (8 * n - 1))); lia.
Qed.

(** ** struct.unpack_from *)

Lemma py_position_nonneg (buf : buffer) (pos : Z) :
  0 <= pos -> py_position buf pos = pos.
Proof.
  intros Hpos. unfold py_position.
  destruct (Z.ltb_spec pos 0); [lia | reflexivity].
Qed.

Lemma calcsize_pos (t : Types.t) : 0 < calcsize t.
Proof. destruct t; simpl; lia. Qed.

(** A read succeeds exactly when the bytes from the position on are in
    the buffer, and then decodes these bytes. *)
Lemma unpack_from_at (t : Types.t) (buf : buffer) (offset : Z) :
  0 <= py_position buf offset ->
  py_position buf offset + calcsize t <= len buf ->
  unpack_from t buf offset =
  OK (decode t (window buf (py_position buf offset) (calcsize t))).
Proof.
  intros Hpos Hfit. unfold unpack_from. cbv zeta.
  rewrite (proj2 (Z.ltb_ge _ _) Hpos).
  rewrite (proj2 (Z.ltb_ge (len buf - py_position buf offset) (calcsize t)))
    by lia.
  reflexivity.
Qed.

Lemma unpack_from_OK_inv (t : Types.t) (buf : buffer) (offset : Z) (v : value t) :
  unpack_from t buf offset = OK v ->
  0 <= py_position buf offset /\
  py_position buf offset + calcsize t <= len buf /\
  v = decode t (window buf (py_position buf offset) (calcsize t)).
Proof.
  unfold unpack_from. cbv zeta.
  destruct (Z.ltb_spec (py_position buf offset) 0) as [Hneg | Hpos];
    [discriminate |].
  destruct (Z.ltb_spec (len buf - py_position buf offset) (calcsize t))
    as [Hshort | Hfit]; [discriminate |].
  simpl. intros [= <-]. repeat split; lia.
Qed.

Lemma unpack_from_inside (t : Types.t) (buf : buffer) (pos : Z) :
  0 <= pos -> pos + calcsize t <= len buf ->
  unpack_from t buf pos = OK (decode t (window buf pos (calcsize t))).
Proof.
  intros Hpos Hfit.
  rewrite unpack_from_at; rewrite (py_position_nonneg buf pos Hpos);
    [reflexivity | exact Hpos | exact Hfit].
Qed.

(** The exception of a read outside of the buffer. *)
Lemma unpack_from_outside (t : Types.t) (buf : buffer) (offset : Z) :
  py_position buf offset < 0 \/ len buf < py_position buf offset + calcsize t ->
  unpack_from t buf offset =
  Raise (if fits_ssize_t offset then StructError else OverflowError).
Proof.
  intros Hout. unfold unpack_from. cbv zeta.
  destruct (Z.ltb_spec (py_position buf offset) 0) as [_ | Hpos];
    [reflexivity |].
  destruct (Z.ltb_spec (len buf - py_position buf offset) (calcsize t))
    as [_ | Hfit]; [reflexivity | lia].
Qed.

Lemma fits_ssize_t_small (z : Z) :
  - 8 <= z -> fits_ssize_t z = (z <? 2 ^ 63).
Proof.
  intros Hz. unfold fits_ssize_t.
  rewrite (proj2 (Z.leb_le (- 2 ^ 63) z)) by lia. reflexivity.
Qed.

(** A read that runs over the end of the buffer raises [struct.error],
    and [OverflowError] from the position [2^63] on. *)
Lemma unpack_from_overrun (t : Types.t) (buf : buffer) (pos : Z) :
  len buf < pos + calcsize t ->
  unpack_from t buf pos =
  Raise (if pos <? 2 ^ 63 then StructError else OverflowError).
Proof.
  intros Hover.
  pose proof (calcsize_pos t) as Hsz. pose proof (len_nonneg buf) as Hlen.
  assert (Hsz8 : calcsize t <= 8) by (destruct t; simpl; lia).
  rewrite <- fits_ssize_t_small by lia.
  apply unpack_from_outside. unfold py_position.
  destruct (Z.ltb_spec pos 0); lia.
Qed.

(** On a buffer shorter than [2^63] bytes the conversion of the offset
    can be done first: an offset that does not fit raises
    [OverflowError], whatever the buffer holds. *)
Lemma unpack_from_ssize_t (t : Types.t) (buf : buffer) (offset : Z) :
  len buf < 2 ^ 63 ->
  unpack_from t buf offset =
  if fits_ssize_t offset then
    let pos := py_position buf offset in
    if (pos <? 0) || (len buf - pos <? calcsize t)
    then Raise StructError
    else OK (decode t (window buf pos (calcsize t)))
  else Raise OverflowError.
Proof.
  intros Hshort. destruct (fits_ssize_t offset) eqn:Hfits.
  - unfold unpack_from. rewrite Hfits. reflexivity.
  - rewrite unpack_from_outside, Hfits; [reflexivity |].
    pose proof (calcsize_pos t) as Hsz. pose proof (len_nonneg buf) as Hlen.
    unfold fits_ssize_t in Hfits. unfold py_position.
    destruct (Z.leb_spec (- 2 ^ 63) offset), (Z.ltb_spec offset (2 ^ 63)),
      (Z.ltb_spec offset 0); simpl in Hfits; try discriminate Hfits; lia.
Qed.

(** ** from_buffer *)

Lemma from_buffer_OK (c : pyclass) (buf : buffer) (offset : Z) (segs : list Z) :
  offset < len buf ->
  from_buffer c buf offset segs =
  OK {| cls := c; _buf := buf; _offset := offset; _segment_offsets := segs |}.
Proof.
  intros Hlt. unfold from_buffer.
  rewrite py_assert_true by (apply Z.ltb_lt; exact Hlt). reflexivity.
Qed.

Lemma from_buffer_Raise (c : pyclass) (buf : buffer) (offset : Z) (segs : list Z) :
  len buf <= offset ->
  from_buffer c buf offset segs = Raise (AssertionError offset_lt_len_buf).
Proof.
  intros Hge. unfold from_buffer.
  rewrite py_assert_false by (apply Z.ltb_ge; exact Hge). reflexivity.
Qed.

Lemma from_buffer_inv (c : pyclass) (buf : buffer) (offset : Z) (segs : list Z)
    (self : Blob) :
  from_buffer c buf offset segs = OK self ->
  offset < len buf /\
  self = {| cls := c; _buf := buf; _offset := offset; _segment_offsets := segs |}.
Proof.
  unfold from_buffer, py_assert.
  destruct (Z.ltb_spec offset (len buf)) as [Hlt | Hge]; simpl; intros H.
  - split; [exact Hlt | congruence].
  - discriminate H.
Qed.

(** C6. Construction from [(buf, offset, segment_offsets)]: when
    [offset >= len(buf)] the assertion of [from_buffer] fails (the bounds
    error of the construction contract); when [offset < len(buf)] the
    construction succeeds and the accessor stores exactly that buffer,
    that offset and that segment table. *)
Theorem from_buffer_contract (c : pyclass) (buf : buffer) (offset : Z)
    (segs : list Z) :
  (len buf <= offset ->
     from_buffer c buf offset segs = Raise (AssertionError offset_lt_len_buf)) /\
  (offset < len buf ->
     exists self, from_buffer c buf offset segs = OK self /\
       _buf self = buf /\ _offset self = offset /\ _segment_offsets self = segs).
Proof.
  split.
  - apply from_buffer_Raise.
  - intros Hlt. eexists. split; [apply from_buffer_OK; exact Hlt |].
    simpl. repeat split.
Qed.

Lemma from_buffer_contract_witness :
  from_buffer "Blob"%string msg_hi 16 [0] = Raise (AssertionError offset_lt_len_buf) /\
  exists self, from_buffer "Blob"%string msg_hi 15 [0] = OK self /\
    _buf self = msg_hi /\ _offset self = 15 /\ _segment_offsets self = [0].
Proof.
  split.
  - apply (proj1 (from_buffer_contract "Blob"%string msg_hi 16 [0])).
    vm_compute. discriminate.
  - apply (proj2 (from_buffer_contract "Blob"%string msg_hi 15 [0])).
    vm_compute. reflexivity.
Defined.

(** ** Primitive fields *)

Lemma read_primitive_inside (self : Blob) (offset : Z) (t : Types.t) :
  0 <= _offset self + offset ->
  _offset self + offset + calcsize t <= len (_buf self) ->
  _read_primitive self offset t =
  OK (decode t (window (_buf self) (_offset self + offset) (calcsize t))).
Proof. intros Hpos Hfit. apply unpack_from_inside; assumption. Qed.

(** C2, amended. A primitive read whose byte range
    [_offset + offset + width] exceeds the length of the buffer fails:
    it raises [struct.error] (the bounds error), and [OverflowError] when
    the position [_offset + offset] is [2^63] or more.  A read whose range
    lies inside the buffer, from a position that is not negative, returns
    the little-endian value of the [width] bytes at that position, and
    these bytes are bytes of the buffer. *)
Theorem read_primitive_bounds (self : Blob) (offset : Z) (t : Types.t) :
  let pos := _offset self + offset in
  (len (_buf self) < pos + calcsize t ->
     _read_primitive self offset t =
       Raise (if pos <? 2 ^ 63 then StructError else OverflowError)) /\
  (0 <= pos -> pos + calcsize t <= len (_buf self) ->
     _read_primitive self offset t =
       OK (decode t (window (_buf self) pos (calcsize t))) /\
     length (window (_buf self) pos (calcsize t)) = Z.to_nat (calcsize t) /\
     forall i, (i < Z.to_nat (calcsize t))%nat ->
       nth_error (window (_buf self) pos (calcsize t)) i =
       nth_error (_buf self) (Z.to_nat pos + i)).
Proof.
  intros pos. split.
  - intros Hover. apply unpack_from_overrun. exact Hover.
  - intros Hpos Hfit. pose proof (calcsize_pos t) as Hsz. repeat split.
    + apply read_primitive_inside; assumption.
    + apply window_length; lia.
    + intros i Hi. apply window_nth_error; assumption.
Qed.

Lemma read_primitive_bounds_witness :
  _read_primitive (blob_at msg_hi 0) 12 Types.int64 = Raise StructError /\
  _read_primitive (blob_at msg_hi 0) (2 ^ 63) Types.int64 = Raise OverflowError /\
  _read_primitive (blob_at msg_hi 0) 8 Types.int16 = OK 26984.
Proof.
  split; [| split].
  - apply (proj1 (read_primitive_bounds (blob_at msg_hi 0) 12 Types.int64)).
    vm_compute. reflexivity.
  - apply (proj1 (read_primitive_bounds (blob_at msg_hi 0) (2 ^ 63) Types.int64)).
    vm_compute. reflexivity.
  - apply (proj2 (read_primitive_bounds (blob_at msg_hi 0) 8 Types.int16));
      vm_compute; discriminate.
Defined.

(** C2 as stated fails for an accessor at a negative offset, which
    [from_buffer] accepts: the range [-6 + 0 + 2] does not exceed the
    length 4 of the buffer, and yet the read raises. *)
Lemma read_primitive_negative_position_raises :
  let buf := [x01; x02; x03; x04] in
  exists self,
    from_buffer "Blob"%string buf (-6) [0] = OK self /\
    _offset self + 0 + calcsize Types.int16 <= len (_buf self) /\
    _read_primitive self 0 Types.int16 = Raise StructError.
Proof.
  eexists. split; [reflexivity |]. split.
  - vm_compute. discriminate.
  - reflexivity.
Qed.

(** Closer to the end of the buffer a negative position reads the bytes
    counted from the end. *)
Example read_primitive_negative_position_wraps :
  _read_primitive (blob_at [x01; x02; x03; x04] (-2)) 0 Types.int16 = OK 1027.
Proof. reflexivity. Qed.

(** ** Enum fields *)

(** A 16-bit signed read returns a value of 16 bits. *)
Lemma read_int16_range (self : Blob) (offset : Z) (code : Z) :
  _read_primitive self offset Types.int16 = OK code ->
  - 2 ^ 15 <= code < 2 ^ 15.
Proof.
  unfold _read_primitive. intros H.
  apply unpack_from_OK_inv in H as [Hpos [Hfit ->]].
  change (calcsize Types.int16) with 2 in *.
  set (pos := py_position _ _) in *.
  pose proof (le_unsigned_range (window (_buf self) pos 2)) as Hu.
  rewrite (window_length (_buf self) pos 2) in Hu by lia.
  change (Z.of_nat (Z.to_nat 2)) with 2 in Hu.
  apply (to_signed_range 2); lia.
Qed.

(** C7. An enum read returns the enum value that wraps the signed 16-bit
    little-endian code read at the offset, whatever the code: a code that
    names no variant of the enum type is not an error of the read.  The
    only failure of an enum read is the failure of the 16-bit read
    itself. *)
Theorem read_enum_any_code (self : Blob) (offset : Z) (e : enumtype) :
  (forall code, _read_primitive self offset Types.int16 = OK code ->
     _read_enum self offset e = OK (enum_new e code) /\
     - 2 ^ 15 <= code < 2 ^ 15) /\
  (forall err, _read_enum self offset e = Raise err ->
     _read_primitive self offset Types.int16 = Raise err) /\
  (0 <= _offset self + offset ->
   _offset self + offset + 2 <= len (_buf self) ->
   _read_enum self offset e =
     OK (enum_new e (to_signed 2
           (le_unsigned (window (_buf self) (_offset self + offset) 2))))).
Proof.
  split; [| split].
  - intros code Hcode. split.
    + unfold _read_enum. rewrite Hcode. reflexivity.
    + apply (read_int16_range self offset). exact Hcode.
  - intros err. unfold _read_enum.
    destruct (_read_primitive self offset Types.int16) as [v | err']; simpl;
      [discriminate | congruence].
  - intros Hpos Hfit. unfold _read_enum.
    rewrite (read_primitive_inside self offset Types.int16) by assumption.
    reflexivity.
Qed.

(** The enum [Color] has two variants; the first two bytes of the buffer
    hold the code 7: the read succeeds and the value is in the unknown
    state. *)
Lemma read_enum_any_code_witness :
  _read_enum (blob_at [x07; x00] 0) 0 Color = OK (enum_new Color 7) /\
  enum_variant (enum_new Color 7) = None /\
  - 2 ^ 15 <= 7 < 2 ^ 15.
Proof.
  destruct (read_enum_any_code (blob_at [x07; x00] 0) 0 Color) as [Hcode _].
  destruct (Hcode 7) as [Hread Hrange].
  - vm_compute. reflexivity.
  - split; [exact Hread |]. split; [reflexivity | exact Hrange].
Defined.

(** ** Groups *)

(** C8. A group read on an accessor returns an accessor of the group class
    at the same absolute offset, over the same buffer and the same segment
    table; no pointer is read and no offset is computed. *)
Theorem read_group_aliases (c : pyclass) (buf : buffer) (offset : Z)
    (segs : list Z) (self : Blob) (groupcls : pyclass) :
  from_buffer c buf offset segs = OK self ->
  _read_group self groupcls =
    OK {| cls := groupcls; _buf := _buf self; _offset := _offset self;
          _segment_offsets := _segment_offsets self |} /\
  _buf self = buf /\ _offset self = offset /\ _segment_offsets self = segs.
Proof.
  intros Hself. apply from_buffer_inv in Hself as [Hlt ->]. simpl.
  split; [| repeat split].
  unfold _read_group. simpl. apply from_buffer_OK. exact Hlt.
Qed.

Lemma read_group_aliases_witness :
  _read_group (blob_at msg_hi 8) "Group"%string =
    OK {| cls := "Group"%string; _buf := msg_hi; _offset := 8;
          _segment_offsets := [0] |}.
Proof.
  apply (read_group_aliases "Blob"%string msg_hi 8 [0] (blob_at msg_hi 8)
           "Group"%string).
  vm_compute. reflexivity.
Defined.

(** ** Null pointers *)

(** A pointer word of eight zero bytes reads as the pointer 0. *)
Lemma read_ptr_zero_word (self : Blob) (offset : Z) :
  let pos := py_position (_buf self) (_offset self + offset) in
  0 <= pos ->
  window (_buf self) pos 8 = repeat x00 8 ->
  _read_ptr self offset = OK {| ptr_cls := Ptr_; word := 0 |}.
Proof.
  intros pos Hpos Hzero. unfold _read_ptr, _read_primitive.
  assert (Hfit : pos + 8 <= len (_buf self)).
  { apply window_full_fits; [exact Hpos | lia |]. rewrite Hzero. reflexivity. }
  rewrite unpack_from_at by assumption.
  change (calcsize Types.int64) with 8. fold pos. rewrite Hzero. reflexivity.
Qed.

(** Conversely, a pointer that reads as 0 inside the buffer is made of
    zero bytes only. *)
Lemma read_ptr_zero_inv (self : Blob) (offset : Z) (p : ptr) :
  0 <= _offset self + offset ->
  _offset self + offset + 8 <= len (_buf self) ->
  _read_ptr self offset = OK p -> word p = 0 ->
  window (_buf self) (_offset self + offset) 8 = repeat x00 8.
Proof.
  intros Hpos Hfit. unfold _read_ptr.
  rewrite (read_primitive_inside self offset Types.int64) by assumption.
  change (calcsize Types.int64) with 8. simpl. intros [= <-]. simpl. intros Hw.
  set (bs := window (_buf self) (_offset self + offset) 8) in *.
  assert (Hlen : length bs = 8%nat)
    by (unfold bs; rewrite window_length; [reflexivity | lia | lia | lia]).
  pose proof (le_unsigned_range bs) as Hu. rewrite Hlen in Hu.
  change (Z.of_nat 8) with 8 in Hu.
  assert (Hw0 : le_unsigned bs = 0)
    by (apply (proj1 (to_signed_zero 8 _ ltac:(lia) Hu)); exact Hw).
  apply (proj1 (le_unsigned_zero bs)) in Hw0. clear Hw Hu.
  do 9 (destruct bs as [| ? bs]; try discriminate Hlen).
  repeat match goal with
         | H : Forall _ (_ :: _) |- _ => inversion H; subst; clear H
         end.
  reflexivity.
Qed.

Section NullPointer.

Variable follow : ptr -> Blob -> result (Z * ptr).

Lemma deref_ptrstruct_null (self : Blob) (offset : Z) (p : ptr) :
  _read_ptr self offset = OK p -> word p = 0 ->
  _deref_ptrstruct follow self offset = OK None.
Proof.
  intros Hread Hzero. unfold _deref_ptrstruct.
  rewrite Hread. cbn [bind]. rewrite Hzero. reflexivity.
Qed.

Lemma deref_ptrlist_null (self : Blob) (offset : Z) (p : ptr) :
  _read_ptr self offset = OK p -> word p = 0 ->
  _deref_ptrlist follow self offset = OK None.
Proof.
  intros Hread Hzero. unfold _deref_ptrlist.
  rewrite Hread. cbn [bind]. rewrite Hzero. reflexivity.
Qed.

(** The four readers return [None] on a pointer that reads as 0,
    wherever it was read. *)
Lemma readers_null (self : Blob) (offset : Z) (p : ptr)
    (structcls listcls item_type : pyclass) :
  _read_ptr self offset = OK p -> word p = 0 ->
  _read_struct follow self offset structcls = OK None /\
  _read_list follow self offset listcls item_type = OK None /\
  _read_string follow self offset = OK None /\
  _read_data follow self offset = OK None.
Proof.
  intros Hread Hzero.
  pose proof (deref_ptrstruct_null self offset p Hread Hzero) as Hs.
  pose proof (deref_ptrlist_null self offset p Hread Hzero) as Hl.
  unfold _read_struct, _read_list, _read_string, _read_data.
  rewrite Hs, Hl. simpl. repeat split.
Qed.

(** C1. When the eight bytes of the pointer word at the given offset are
    all zero, the struct, list, text and data readers return [None]: no
    exception is raised and no accessor is constructed. *)
Theorem null_pointer_reads_None (self : Blob) (offset : Z)
    (structcls listcls item_type : pyclass) :
  let pos := py_position (_buf self) (_offset self + offset) in
  0 <= pos ->
  window (_buf self) pos 8 = repeat x00 8 ->
  _read_struct follow self offset structcls = OK None /\
  _read_list follow self offset listcls item_type = OK None /\
  _read_string follow self offset = OK None /\
  _read_data follow self offset = OK None.
Proof.
  intros pos Hpos Hzero.
  apply (readers_null self offset {| ptr_cls := Ptr_; word := 0 |}).
  - apply read_ptr_zero_word; assumption.
  - reflexivity.
Qed.

End NullPointer.

(** [msg_hi] followed by a word of zero bytes, read as a pointer field of
    the accessor at byte 8. *)
Lemma null_pointer_reads_None_witness :
  let self := blob_at (msg_hi ++ repeat x00 8) 8 in
  _read_struct FarPtr_follow self 8 "S"%string = OK None /\
  _read_list FarPtr_follow self 8 "List"%string "Blob"%string = OK None /\
  _read_string FarPtr_follow self 8 = OK None /\
  _read_data FarPtr_follow self 8 = OK None.
Proof.
  apply (null_pointer_reads_None FarPtr_follow
           (blob_at (msg_hi ++ repeat x00 8) 8) 8).
  - vm_compute. discriminate.
  - vm_compute. reflexivity.
Defined.

(** ** Slices *)

Lemma py_slice_inside (buf : buffer) (start stop : Z) :
  0 <= start -> start <= stop -> stop <= len buf ->
  py_slice buf start stop = window buf start (stop - start).
Proof.
  intros Hs Hse He. unfold py_slice, window, slice_index.
  destruct (Z.ltb_spec start 0) as [Hneg | _]; [lia |].
  destruct (Z.ltb_spec stop 0) as [Hneg | _]; [lia |].
  rewrite !Z.min_l by lia. reflexivity.
Qed.

(** A slice that stops one byte before its start is empty, except when
    it starts at 0: the stop index -1 then counts from the end. *)
Lemma py_slice_stop_before_start (buf : buffer) (start : Z) :
  start <> 0 -> py_slice buf start (start - 1) = [].
Proof.
  intros Hnz. unfold py_slice, slice_index.
  pose proof (len_nonneg buf) as Hlen.
  replace (Z.to_nat _) with 0%nat; [reflexivity |].
  destruct (Z.ltb_spec start 0), (Z.ltb_spec (start - 1) 0); lia.
Qed.

Lemma py_slice_0_minus_1 (buf : buffer) :
  py_slice buf 0 (-1) = firstn (length buf - 1) buf.
Proof.
  unfold py_slice, slice_index, len.
  change (0 <? 0) with false. change (-1 <? 0) with true. cbv iota.
  rewrite Z.min_l by lia. change (Z.to_nat 0) with 0%nat. cbn [skipn].
  f_equal. lia.
Qed.

(** ** Text and data fields *)

Section TextAndData.

Variable follow : ptr -> Blob -> result (Z * ptr).

Lemma read_string_list (self : Blob) (offset off n : Z) :
  _deref_ptrlist follow self offset = OK (Some (off, ListPtr.SIZE_8, n)) ->
  _read_string follow self offset =
  OK (Some (py_slice (_buf self) (_offset self + off) (_offset self + off + n - 1))).
Proof. intros Hd. unfold _read_string. rewrite Hd. reflexivity. Qed.

Lemma read_data_list (self : Blob) (offset off n : Z) :
  _deref_ptrlist follow self offset = OK (Some (off, ListPtr.SIZE_8, n)) ->
  _read_data follow self offset =
  OK (Some (py_slice (_buf self) (_offset self + off) (_offset self + off + n))).
Proof. intros Hd. unfold _read_data. rewrite Hd. reflexivity. Qed.

(** C3, amended. For a non-null list of one-byte elements with a raw
    element count [n] of at least 1 whose [n] bytes lie inside the
    buffer, the text read returns the first [n - 1] bytes of the list
    body and the data read returns all [n] bytes: the data result is
    one byte longer than the text result. *)
Theorem text_is_data_without_last_byte (self : Blob) (offset off n : Z) :
  _deref_ptrlist follow self offset = OK (Some (off, ListPtr.SIZE_8, n)) ->
  1 <= n ->
  0 <= _offset self + off ->
  _offset self + off + n <= len (_buf self) ->
  let body := window (_buf self) (_offset self + off) n in
  let text := firstn (Z.to_nat (n - 1)) body in
  _read_string follow self offset = OK (Some text) /\
  _read_data follow self offset = OK (Some body) /\
  length body = Z.to_nat n /\
  length body = S (length text).
Proof.
  intros Hd Hn Hstart Hfit body text.
  assert (Hbody : length body = Z.to_nat n)
    by (apply window_length; lia).
  repeat split.
  - rewrite (read_string_list self offset off n Hd).
    rewrite py_slice_inside by lia. do 2 f_equal.
    unfold text, body, window. rewrite firstn_firstn. f_equal. lia.
  - rewrite (read_data_list self offset off n Hd).
    rewrite py_slice_inside by lia. do 2 f_equal.
    unfold body. f_equal. lia.
  - exact Hbody.
  - unfold text. rewrite length_firstn, Hbody. lia.
Qed.

(** C5. A text or data read whose dereferenced non-null list has a size
    tag other than the one of one-byte elements fails on the assertion
    [size_tag == ListPtr.SIZE_8] (the type mismatch error): no byte
    sequence is returned. *)
Theorem text_data_size_tag_mismatch (self : Blob) (offset off tag n : Z) :
  _deref_ptrlist follow self offset = OK (Some (off, tag, n)) ->
  tag <> ListPtr.SIZE_8 ->
  _read_string follow self offset = Raise (AssertionError size_tag_eq_SIZE_8) /\
  _read_data follow self offset = Raise (AssertionError size_tag_eq_SIZE_8).
Proof.
  intros Hd Htag. unfold _read_string, _read_data. rewrite Hd. cbn [bind].
  rewrite py_assert_false by (apply Z.eqb_neq; exact Htag).
  split; reflexivity.
Qed.

(** A list of one-byte elements with a raw element count of 0 reads as
    the empty text wherever its body does not start at byte 0 of the
    buffer. *)
Lemma read_string_empty_list (self : Blob) (offset off : Z) :
  _deref_ptrlist follow self offset = OK (Some (off, ListPtr.SIZE_8, 0)) ->
  _offset self + off <> 0 ->
  _read_string follow self offset = OK (Some []).
Proof.
  intros Hd Hnz. rewrite (read_string_list self offset off 0 Hd).
  replace (_offset self + off + 0 - 1) with (_offset self + off - 1) by lia.
  rewrite py_slice_stop_before_start by exact Hnz. reflexivity.
Qed.

(** When the body starts at byte 0 of the buffer, the text read returns
    the buffer without its last byte. *)
Lemma read_string_empty_list_at_0 (self : Blob) (offset off : Z) :
  _deref_ptrlist follow self offset = OK (Some (off, ListPtr.SIZE_8, 0)) ->
  _offset self + off = 0 ->
  _read_string follow self offset =
  OK (Some (firstn (length (_buf self) - 1) (_buf self))).
Proof.
  intros Hd Hz. rewrite (read_string_list self offset off 0 Hd).
  rewrite Hz. simpl (0 + 0 - 1). rewrite py_slice_0_minus_1. reflexivity.
Qed.

(** The data read of a list with a raw element count of 0 is empty. *)
Lemma read_data_empty_list (self : Blob) (offset off : Z) :
  _deref_ptrlist follow self offset = OK (Some (off, ListPtr.SIZE_8, 0)) ->
  _read_data follow self offset = OK (Some []).
Proof.
  intros Hd. rewrite (read_data_list self offset off 0 Hd).
  unfold py_slice. rewrite Z.add_0_r, Z.sub_diag. reflexivity.
Qed.

End TextAndData.

Lemma text_is_data_without_last_byte_witness :
  _read_string FarPtr_follow (blob_at msg_hi 0) 0 = OK (Some [x68; x69]) /\
  _read_data FarPtr_follow (blob_at msg_hi 0) 0 = OK (Some [x68; x69; x00]) /\
  length [x68; x69; x00] = 3%nat /\
  length [x68; x69; x00] = S (length [x68; x69]).
Proof.
  apply (text_is_data_without_last_byte FarPtr_follow (blob_at msg_hi 0) 0 8 3).
  - vm_compute. reflexivity.
  - lia.
  - vm_compute. discriminate.
  - vm_compute. discriminate.
Defined.

(** C3 as stated fails on a list of one-byte elements with a raw element
    count of 0: text and data are both empty, the data result is not one
    byte longer than the text result. *)
Lemma empty_list_text_and_data_have_same_length :
  let self := blob_at msg_empty_list 0 in
  _deref_ptrlist FarPtr_follow self 0 = OK (Some (8, ListPtr.SIZE_8, 0)) /\
  _read_string FarPtr_follow self 0 = OK (Some []) /\
  _read_data FarPtr_follow self 0 = OK (Some []) /\
  ~ (exists text data,
       _read_string FarPtr_follow self 0 = OK (Some text) /\
       _read_data FarPtr_follow self 0 = OK (Some data) /\
       length data = S (length text)).
Proof.
  repeat split; try reflexivity.
  intros [text [data [Ht [Hd Hlen]]]].
  vm_compute in Ht. vm_compute in Hd.
  injection Ht as <-. injection Hd as <-. discriminate Hlen.
Qed.

(** A list body that runs over the end of the buffer is cut by the slice
    without any error: of the 3 bytes announced, text and data both
    return the single byte that is there. *)
Example truncated_list_text_and_data :
  _deref_ptrlist FarPtr_follow (blob_at msg_truncated 0) 0
    = OK (Some (8, ListPtr.SIZE_8, 3)) /\
  _read_string FarPtr_follow (blob_at msg_truncated 0) 0 = OK (Some [x68]) /\
  _read_data FarPtr_follow (blob_at msg_truncated 0) 0 = OK (Some [x68]).
Proof. repeat split. Qed.

Lemma text_data_size_tag_mismatch_witness :
  _read_string FarPtr_follow (blob_at msg_shorts 0) 0
    = Raise (AssertionError size_tag_eq_SIZE_8) /\
  _read_data FarPtr_follow (blob_at msg_shorts 0) 0
    = Raise (AssertionError size_tag_eq_SIZE_8).
Proof.
  apply (text_data_size_tag_mismatch FarPtr_follow (blob_at msg_shorts 0) 0 8 3 3).
  - vm_compute. reflexivity.
  - vm_compute. discriminate.
Defined.

(** C10 on the code. The pointer field at byte 8 of the accessor at byte
    0 of [msg_empty_at_0] is a non-null list pointer to one-byte elements
    with a raw element count of 0, whose body starts at byte 0 of the
    buffer.  The text read returns the first 15 bytes of the buffer, not
    the empty byte sequence: the stop index [start + 0 - 1 = -1] of the
    slice counts from the end of the buffer. *)
Theorem read_string_empty_list_at_buffer_start :
  let self := blob_at msg_empty_at_0 0 in
  from_buffer "Blob"%string msg_empty_at_0 0 [0] = OK self /\
  _deref_ptrlist FarPtr_follow self 8 = OK (Some (0, ListPtr.SIZE_8, 0)) /\
  _read_string FarPtr_follow self 8 =
    OK (Some [x70; x61; x79; x6c; x6f; x61; x64; x21;
              xf9; xff; xff; xff; x02; x00; x00]) /\
  _read_data FarPtr_follow self 8 = OK (Some []).
Proof. repeat split. Qed.

(** ** Buffer and segment table of derived accessors *)

Lemma from_buffer_same (c : pyclass) (buf : buffer) (offset : Z)
    (segs : list Z) (b : Blob) :
  from_buffer c buf offset segs = OK b ->
  _buf b = buf /\ _segment_offsets b = segs.
Proof.
  intros H. apply from_buffer_inv in H as [_ ->]. split; reflexivity.
Qed.

Lemma List_from_buffer_same (c : pyclass) (buf : buffer) (offset : Z)
    (segs : list Z) (size_tag item_count : Z) (item_type : pyclass) (l : List) :
  List_from_buffer c buf offset segs size_tag item_count item_type = OK l ->
  _buf (list_blob l) = buf /\ _segment_offsets (list_blob l) = segs /\
  _size_tag l = size_tag /\ _item_count l = item_count.
Proof.
  unfold List_from_buffer. intros H.
  apply bind_inv in H as [b [Hb Hl]]. injection Hl as <-. simpl.
  apply from_buffer_same in Hb as [-> ->]. repeat split.
Qed.

Lemma from_buffer_and_size_same (buf : buffer) (offset : Z) (segs : list Z)
    (data_size ptrs_size : Z) (s : GenericStruct) :
  from_buffer_and_size buf offset segs data_size ptrs_size = OK s ->
  _buf (struct_blob s) = buf /\ _segment_offsets (struct_blob s) = segs /\
  _data_size s = data_size /\ _ptrs_size s = ptrs_size.
Proof.
  unfold from_buffer_and_size. intros H.
  apply bind_inv in H as [b [Hb Hs]]. injection Hs as <-. simpl.
  apply from_buffer_same in Hb as [-> ->]. repeat split.
Qed.

(** What a generic pointer read that succeeds has built. *)
Lemma follow_generic_inv (self : Blob) (ptr_offset : Z) (g : generic) :
  _follow_generic_pointer self ptr_offset = OK (Some g) ->
  match g with
  | GStruct s => _buf (struct_blob s) = _buf self /\
                 _segment_offsets (struct_blob s) = _segment_offsets self
  | GList l => _buf (list_blob l) = _buf self /\
               _segment_offsets (list_blob l) = _segment_offsets self
  end.
Proof.
  unfold _follow_generic_pointer. intros H.
  apply bind_inv in H as [p [_ H]].
  destruct (word p =? 0); [discriminate H |].
  apply bind_inv in H as [q [_ H]].
  destruct (Ptr.kind q =? StructPtr.KIND).
  - apply bind_inv in H as [s [Hs H]]. injection H as <-.
    apply from_buffer_and_size_same in Hs as [Hb [Hseg _]]. split; assumption.
  - destruct (Ptr.kind q =? ListPtr.KIND); [| discriminate H].
    apply bind_inv in H as [l [Hl H]]. injection H as <-.
    apply List_from_buffer_same in Hl as [Hb [Hseg _]]. split; assumption.
Qed.

Lemma derived_step (follow : ptr -> Blob -> result (Z * ptr)) (self b : Blob) :
  derived follow self b ->
  _buf b = _buf self /\ _segment_offsets b = _segment_offsets self.
Proof.
  intros [offset structcls b' H | offset listcls item_type l H
         | groupcls b' H | ptr_offset s H | ptr_offset l H].
  - unfold _read_struct in H. apply bind_inv in H as [so [_ H]].
    destruct so as [so |]; [| discriminate H].
    apply bind_inv in H as [b0 [Hb H]]. injection H as <-.
    apply from_buffer_same in Hb. exact Hb.
  - unfold _read_list in H. apply bind_inv in H as [d [_ H]].
    destruct d as [[[off tag] n] |]; [| discriminate H].
    apply bind_inv in H as [l0 [Hl H]]. injection H as <-.
    apply List_from_buffer_same in Hl as [Hb [Hseg _]]. split; assumption.
  - unfold _read_group in H. apply from_buffer_same in H. exact H.
  - apply (follow_generic_inv self ptr_offset (GStruct s) H).
  - apply (follow_generic_inv self ptr_offset (GList l) H).
Qed.

(** C9. Every accessor produced by a field read (struct read, list read,
    group read, generic pointer follow) holds the buffer and the segment
    table of the accessor it was derived from. *)
Theorem derived_same_buffer_and_segments
    (follow : ptr -> Blob -> result (Z * ptr)) (self b : Blob) :
  derived follow self b ->
  _buf b = _buf self /\ _segment_offsets b = _segment_offsets self.
Proof. apply derived_step. Qed.

Lemma derived_same_buffer_and_segments_witness :
  _buf (blob_at msg_far 16) = _buf (blob_at msg_far 0) /\
  _segment_offsets (blob_at msg_far 16) = _segment_offsets (blob_at msg_far 0).
Proof.
  apply (derived_same_buffer_and_segments FarPtr_follow
           (blob_at msg_far 0) (blob_at msg_far 16)).
  apply (derived_struct FarPtr_follow (blob_at msg_far 0) 0 "Blob"%string).
  vm_compute. reflexivity.
Defined.

(** The same holds along any chain of field reads from a root accessor. *)
Lemma reachable_same_buffer_and_segments
    (follow : ptr -> Blob -> result (Z * ptr)) (root b : Blob) :
  clos_refl_trans Blob (derived follow) root b ->
  _buf b = _buf root /\ _segment_offsets b = _segment_offsets root.
Proof.
  induction 1 as [x y Hstep | x | x y z _ [IHb1 IHs1] _ [IHb2 IHs2]].
  - apply (derived_step follow). exact Hstep.
  - split; reflexivity.
  - split; congruence.
Qed.

(** ** Generic pointers *)

(** [specialize] keeps the word and sets the class of the kind. *)
Lemma specialize_struct (p : ptr) :
  Ptr.kind p = StructPtr.KIND ->
  Ptr.specialize p = OK {| ptr_cls := StructPtr_; word := word p |}.
Proof. intros H. unfold Ptr.specialize. rewrite H. reflexivity. Qed.

Lemma specialize_list (p : ptr) :
  Ptr.kind p = ListPtr.KIND ->
  Ptr.specialize p = OK {| ptr_cls := ListPtr_; word := word p |}.
Proof. intros H. unfold Ptr.specialize. rewrite H. reflexivity. Qed.

Lemma specialize_far (p : ptr) :
  Ptr.kind p = FarPtr.KIND ->
  Ptr.specialize p = OK {| ptr_cls := FarPtr_; word := word p |}.
Proof. intros H. unfold Ptr.specialize. rewrite H. reflexivity. Qed.

Lemma specialize_reserved (p : ptr) :
  Ptr.kind p = 3 -> Ptr.specialize p = Raise ValueError.
Proof. intros H. unfold Ptr.specialize. rewrite H. reflexivity. Qed.

Lemma kind_of_word (c : ptr_class) (p : ptr) :
  Ptr.kind {| ptr_cls := c; word := word p |} = Ptr.kind p.
Proof. reflexivity. Qed.

(** The null pointer has the kind of a struct pointer: a pointer of
    another kind is not null. *)
Lemma kind_nonzero_word (p : ptr) : Ptr.kind p <> 0 -> word p <> 0.
Proof.
  intros Hk Hz. apply Hk. unfold Ptr.kind. rewrite Hz. reflexivity.
Qed.

(** A near struct pointer leads to the generic struct built from the
    pointer's own data and pointer word counts. *)
Lemma follow_generic_struct (self : Blob) (ptr_offset : Z) (p : ptr) :
  _read_ptr self ptr_offset = OK p -> word p <> 0 ->
  Ptr.kind p = StructPtr.KIND ->
  let q := {| ptr_cls := StructPtr_; word := word p |} in
  _follow_generic_pointer self ptr_offset =
    (s <- from_buffer_and_size (_buf self)
            (_offset self + Ptr.deref q ptr_offset) (_segment_offsets self)
            (StructPtr.data_size q) (StructPtr.ptrs_size q) ;;
     OK (Some (GStruct s))).
Proof.
  intros Hread Hnz Hkind q. unfold _follow_generic_pointer.
  rewrite Hread. cbn [bind].
  rewrite (proj2 (Z.eqb_neq _ _) Hnz).
  rewrite (specialize_struct p Hkind). cbn [bind].
  rewrite kind_of_word, Hkind. reflexivity.
Qed.

(** A near list pointer leads to the generic list built from the
    pointer's own size tag and item count. *)
Lemma follow_generic_list (self : Blob) (ptr_offset : Z) (p : ptr) :
  _read_ptr self ptr_offset = OK p ->
  Ptr.kind p = ListPtr.KIND ->
  let q := {| ptr_cls := ListPtr_; word := word p |} in
  _follow_generic_pointer self ptr_offset =
    (l <- List_from_buffer "List"%string (_buf self)
            (_offset self + Ptr.deref q ptr_offset) (_segment_offsets self)
            (ListPtr.size_tag q) (ListPtr.item_count q) "Blob"%string ;;
     OK (Some (GList l))).
Proof.
  intros Hread Hkind q. unfold _follow_generic_pointer.
  rewrite Hread. cbn [bind].
  assert (Hnz : word p <> 0)
    by (apply kind_nonzero_word; rewrite Hkind; discriminate).
  rewrite (proj2 (Z.eqb_neq _ _) Hnz).
  rewrite (specialize_list p Hkind). cbn [bind].
  rewrite kind_of_word, Hkind. reflexivity.
Qed.

(** A far pointer is not followed: the read fails on the last assertion
    of [_follow_generic_pointer], whatever the far pointer leads to. *)
Lemma follow_generic_far (self : Blob) (ptr_offset : Z) (p : ptr) :
  _read_ptr self ptr_offset = OK p ->
  Ptr.kind p = FarPtr.KIND ->
  _follow_generic_pointer self ptr_offset =
    Raise (AssertionError unknown_pointer_kind).
Proof.
  intros Hread Hkind. unfold _follow_generic_pointer.
  rewrite Hread. cbn [bind].
  assert (Hnz : word p <> 0)
    by (apply kind_nonzero_word; rewrite Hkind; discriminate).
  rewrite (proj2 (Z.eqb_neq _ _) Hnz).
  rewrite (specialize_far p Hkind). cbn [bind].
  rewrite kind_of_word, Hkind. reflexivity.
Qed.

(** A pointer of the reserved kind is refused when it is specialized. *)
Lemma follow_generic_reserved (self : Blob) (ptr_offset : Z) (p : ptr) :
  _read_ptr self ptr_offset = OK p ->
  Ptr.kind p = 3 ->
  _follow_generic_pointer self ptr_offset = Raise ValueError.
Proof.
  intros Hread Hkind. unfold _follow_generic_pointer.
  rewrite Hread. cbn [bind].
  assert (Hnz : word p <> 0)
    by (apply kind_nonzero_word; rewrite Hkind; discriminate).
  rewrite (proj2 (Z.eqb_neq _ _) Hnz).
  rewrite (specialize_reserved p Hkind). reflexivity.
Qed.

(** The struct and list readers do follow a far pointer. *)
Lemma deref_ptrstruct_far (follow : ptr -> Blob -> result (Z * ptr))
    (self : Blob) (offset : Z) (p : ptr) :
  _read_ptr self offset = OK p ->
  Ptr.kind p = FarPtr.KIND ->
  _deref_ptrstruct follow self offset =
    (op <- follow {| ptr_cls := FarPtr_; word := word p |} self ;;
     let (offset, p) := op : Z * ptr in
     _ <- py_assert (Ptr.kind p =? StructPtr.KIND) kind_eq_StructPtr_KIND ;;
     OK (Some (Ptr.deref p offset))).
Proof.
  intros Hread Hkind. unfold _deref_ptrstruct.
  rewrite Hread. cbn [bind].
  assert (Hnz : word p <> 0)
    by (apply kind_nonzero_word; rewrite Hkind; discriminate).
  rewrite (proj2 (Z.eqb_neq _ _) Hnz).
  rewrite Hkind. change (FarPtr.KIND =? FarPtr.KIND) with true. cbv iota.
  rewrite (specialize_far p Hkind). reflexivity.
Qed.

(** C4 on the code. The pointer at byte 0 of [msg_far] is a far pointer
    to a landing pad that holds a struct pointer.  The struct reader
    follows it and returns the accessor of the struct at byte 16; the
    generic reader does not resolve the far pointer and fails on its
    assertion about the pointer kind. *)
Theorem follow_generic_far_pointer_raises :
  let self := blob_at msg_far 0 in
  from_buffer "Blob"%string msg_far 0 [0] = OK self /\
  _follow_generic_pointer self 0 = Raise (AssertionError unknown_pointer_kind) /\
  _read_struct FarPtr_follow self 0 "GenericStruct"%string =
    OK (Some {| cls := "GenericStruct"%string; _buf := msg_far; _offset := 16;
                _segment_offsets := [0] |}).
Proof. repeat split. Qed.

(** The near pointers of the sample messages are followed. *)
Example follow_generic_near_struct :
  _follow_generic_pointer (blob_at msg_far 0) 8 =
    OK (Some (GStruct {| struct_blob :=
                           {| cls := "GenericStruct"%string; _buf := msg_far;
                              _offset := 16; _segment_offsets := [0] |};
                         _data_size := 1; _ptrs_size := 0 |})).
Proof. reflexivity. Qed.

Example follow_generic_near_list :
  _follow_generic_pointer (blob_at msg_hi 0) 0 =
    OK (Some (GList {| list_blob :=
                         {| cls := "List"%string; _buf := msg_hi;
                            _offset := 8; _segment_offsets := [0] |};
                       _size_tag := 2; _item_count := 3;
                       _item_type := "Blob"%string |})).
Proof. reflexivity. Qed.

(** * Further properties of the readers *)

(** ** Primitive reads: success, ranges, composition *)

Lemma read_primitive_OK_inv (self : Blob) (offset : Z) (t : Types.t) (v : value t) :
  _read_primitive self offset t = OK v ->
  let pos := py_position (_buf self) (_offset self + offset) in
  0 <= pos /\ pos + calcsize t <= len (_buf self) /\
  v = decode t (window (_buf self) pos (calcsize t)).
Proof. unfold _read_primitive. apply unpack_from_OK_inv. Qed.

(** The only exceptions of a primitive read are [struct.error] and
    [OverflowError]. *)
Lemma read_primitive_Raise_inv (self : Blob) (offset : Z) (t : Types.t) (e : exn) :
  _read_primitive self offset t = Raise e ->
  e = StructError \/ e = OverflowError.
Proof.
  unfold _read_primitive, unpack_from. cbv zeta.
  destruct (_ || _); [| discriminate].
  destruct (fits_ssize_t _); intros [= <-]; [left | right]; reflexivity.
Qed.

Lemma read_primitive_cases (self : Blob) (offset : Z) (t : Types.t) :
  let pos := py_position (_buf self) (_offset self + offset) in
  (0 <= pos /\ pos + calcsize t <= len (_buf self) /\
   _read_primitive self offset t =
     OK (decode t (window (_buf self) pos (calcsize t)))) \/
  ((pos < 0 \/ len (_buf self) < pos + calcsize t) /\
   _read_primitive self offset t =
     Raise (if fits_ssize_t (_offset self + offset)
            then StructError else OverflowError)).
Proof.
  intros pos.
  destruct (Z_lt_ge_dec pos 0) as [Hneg | Hpos].
  - right. split; [left; exact Hneg |].
    apply unpack_from_outside. left. exact Hneg.
  - destruct (Z_lt_ge_dec (len (_buf self)) (pos + calcsize t)) as [Hover | Hfit].
    + right. split; [right; exact Hover |].
      apply unpack_from_outside. right. exact Hover.
    + left. split; [lia |]. split; [lia |].
      unfold _read_primitive. apply unpack_from_at; fold pos; lia.
Qed.

(** X2. An accessor at a negative absolute offset [- k] reads from the
    end of the buffer: the read succeeds when
    [calcsize t <= k <= len(buf)], and returns the value of the bytes
    that start [k] bytes before the end; when [k] is less than the width
    or more than the length of the buffer the read raises
    [struct.error], and [OverflowError] when [k] is more than [2^63]. *)
Theorem read_primitive_from_end (self : Blob) (offset : Z) (t : Types.t) :
  _offset self + offset < 0 ->
  let k := - (_offset self + offset) in
  (calcsize t <= k <= len (_buf self) ->
   _read_primitive self offset t =
     OK (decode t (window (_buf self) (len (_buf self) - k) (calcsize t)))) /\
  (k < calcsize t \/ len (_buf self) < k ->
   _read_primitive self offset t =
     Raise (if k <=? 2 ^ 63 then StructError else OverflowError)).
Proof.
  intros Hneg k.
  assert (Hpos : py_position (_buf self) (_offset self + offset)
                 = len (_buf self) - k).
  { unfold py_position. rewrite (proj2 (Z.ltb_lt _ 0) Hneg). unfold k. lia. }
  assert (Hfits : fits_ssize_t (_offset self + offset) = (k <=? 2 ^ 63)).
  { unfold fits_ssize_t.
    rewrite (proj2 (Z.ltb_lt (_offset self + offset) (2 ^ 63))) by lia.
    rewrite andb_true_r. unfold k.
    destruct (Z.leb_spec (- 2 ^ 63) (_offset self + offset)),
      (Z.leb_spec (- (_offset self + offset)) (2 ^ 63)); try reflexivity; lia. }
  pose proof (read_primitive_cases self offset t) as H. cbv zeta in H.
  rewrite Hpos, Hfits in H. split; intros Hk.
  - destruct H as [[_ [_ H]] | [Hbad _]]; [exact H | lia].
  - destruct H as [[H1 [H2 _]] | [_ H]]; [lia | exact H].
Qed.

Lemma read_primitive_from_end_witness :
  _read_primitive (blob_at [x01; x02; x03; x04] (-2)) 0 Types.int16 = OK 1027 /\
  _read_primitive (blob_at [x01; x02; x03; x04] (-6)) 0 Types.int16
    = Raise StructError /\
  _read_primitive (blob_at [x01; x02; x03; x04] (- 2 ^ 63 - 1)) 0 Types.int16
    = Raise OverflowError.
Proof.
  split; [| split].
  - apply (proj1 (read_primitive_from_end
                    (blob_at [x01; x02; x03; x04] (-2)) 0 Types.int16
                    ltac:(vm_compute; reflexivity))).
    vm_compute. split; discriminate.
  - apply (proj2 (read_primitive_from_end
                    (blob_at [x01; x02; x03; x04] (-6)) 0 Types.int16
                    ltac:(vm_compute; reflexivity))).
    right. vm_compute. reflexivity.
  - apply (proj2 (read_primitive_from_end
                    (blob_at [x01; x02; x03; x04] (- 2 ^ 63 - 1)) 0 Types.int16
                    ltac:(vm_compute; reflexivity))).
    right. vm_compute. reflexivity.
Defined.

Lemma pow256 (n : Z) : 0 <= n -> 256 ^ n = 2 ^ (8 * n).
Proof.
  intros Hn. change 256 with (2 ^ 8). rewrite <- Z.pow_mul_r by lia. reflexivity.
Qed.

(** The unsigned value of a read of [n] bytes. *)
Lemma window_unsigned_range (buf : buffer) (pos n : Z) :
  0 <= pos -> 0 <= n -> pos + n <= len buf ->
  0 <= le_unsigned (window buf pos n) < 2 ^ (8 * n).
Proof.
  intros Hpos Hn Hfit.
  pose proof (le_unsigned_range (window buf pos n)) as Hu.
  rewrite window_length in Hu by assumption.
  rewrite Z2Nat.id, pow256 in Hu by assumption. exact Hu.
Qed.

Lemma window_signed_range (buf : buffer) (pos n : Z) :
  0 <= pos -> 0 < n -> pos + n <= len buf ->
  - 2 ^ (8 * n - 1) <= to_signed n (le_unsigned (window buf pos n))
    < 2 ^ (8 * n - 1).
Proof.
  intros Hpos Hn Hfit. apply to_signed_range; [exact Hn |].
  rewrite pow256 by lia. apply window_unsigned_range; lia.
Qed.

(** X3. The value of an integer read lies in the range of its type:
    [0, 2^(8n)) for an unsigned type of [n] bytes and
    [-2^(8n-1), 2^(8n-1)) for a signed one. *)
Theorem read_primitive_int_range (self : Blob) (offset : Z) :
  (forall v, _read_primitive self offset Types.int8 = OK v -> - 2 ^ 7 <= v < 2 ^ 7) /\
  (forall v, _read_primitive self offset Types.uint8 = OK v -> 0 <= v < 2 ^ 8) /\
  (forall v, _read_primitive self offset Types.int16 = OK v -> - 2 ^ 15 <= v < 2 ^ 15) /\
  (forall v, _read_primitive self offset Types.uint16 = OK v -> 0 <= v < 2 ^ 16) /\
  (forall v, _read_primitive self offset Types.int32 = OK v -> - 2 ^ 31 <= v < 2 ^ 31) /\
  (forall v, _read_primitive self offset Types.uint32 = OK v -> 0 <= v < 2 ^ 32) /\
  (forall v, _read_primitive self offset Types.int64 = OK v -> - 2 ^ 63 <= v < 2 ^ 63) /\
  (forall v, _read_primitive self offset Types.uint64 = OK v -> 0 <= v < 2 ^ 64).
Proof.
  repeat apply conj; intros v Hv;
    apply read_primitive_OK_inv in Hv as [Hpos [Hfit ->]];
    cbn [decode calcsize] in *;
    first [ apply (window_signed_range (_buf self) _ 1); lia
          | apply (window_unsigned_range (_buf self) _ 1); lia
          | apply (window_signed_range (_buf self) _ 2); lia
          | apply (window_unsigned_range (_buf self) _ 2); lia
          | apply (window_signed_range (_buf self) _ 4); lia
          | apply (window_unsigned_range (_buf self) _ 4); lia
          | apply (window_signed_range (_buf self) _ 8); lia
          | apply (window_unsigned_range (_buf self) _ 8); lia ].
Qed.

Lemma read_primitive_int_range_witness :
  - 2 ^ 15 <= 26984 < 2 ^ 15 /\ 0 <= 104 < 2 ^ 8.
Proof.
  destruct (read_primitive_int_range (blob_at msg_hi 0) 8)
    as [_ [Hu8 [Hi16 _]]].
  split.
  - apply Hi16. vm_compute. reflexivity.
  - apply Hu8. vm_compute. reflexivity.
Defined.

(** ** Little-endian composition *)

Lemma le_unsigned_app (xs ys : list byte) :
  le_unsigned (xs ++ ys) =
  le_unsigned xs + 256 ^ Z.of_nat (length xs) * le_unsigned ys.
Proof.
  induction xs as [| x xs IH].
  - simpl. destruct (le_unsigned ys); reflexivity.
  - cbn [app le_unsigned length]. rewrite IH, Nat2Z.inj_succ, Z.pow_succ_r by lia.
    ring.
Qed.

Lemma firstn_plus (A : Type) (a b : nat) (l : list A) :
  firstn (a + b) l = firstn a l ++ firstn b (skipn a l).
Proof.
  revert l. induction a as [| a IH]; intros l.
  - reflexivity.
  - destruct l as [| x l]; simpl.
    + rewrite firstn_nil. reflexivity.
    + rewrite IH. reflexivity.
Qed.

(** A window is its first bytes followed by the window of the rest. *)
Lemma window_split (buf : buffer) (pos a b : Z) :
  0 <= pos -> 0 <= a -> 0 <= b ->
  window buf pos (a + b) = window buf pos a ++ window buf (pos + a) b.
Proof.
  intros Hpos Ha Hb. unfold window.
  rewrite Z2Nat.inj_add by assumption. rewrite firstn_plus.
  f_equal. rewrite skipn_skipn. do 2 f_equal. lia.
Qed.

Lemma read_unsigned_split (buf : buffer) (pos a b : Z) :
  0 <= pos -> 0 <= a -> 0 <= b -> pos + a + b <= len buf ->
  le_unsigned (window buf pos (a + b)) =
  le_unsigned (window buf pos a) + 2 ^ (8 * a) * le_unsigned (window buf (pos + a) b).
Proof.
  intros Hpos Ha Hb Hfit.
  rewrite window_split, le_unsigned_app by assumption.
  rewrite window_length by lia. rewrite Z2Nat.id, pow256 by assumption.
  reflexivity.
Qed.

(** X4. Little-endian composition of unsigned reads inside the buffer:
    the value of a read is the value of its low half plus [2^(bits/2)]
    times the value of its high half, read at the following offset. *)
Theorem read_unsigned_halves (self : Blob) (offset : Z) :
  0 <= _offset self + offset ->
  (_offset self + offset + 2 <= len (_buf self) ->
   exists lo hi,
     _read_primitive self offset Types.uint8 = OK lo /\
     _read_primitive self (offset + 1) Types.uint8 = OK hi /\
     _read_primitive self offset Types.uint16 = OK (lo + 2 ^ 8 * hi)) /\
  (_offset self + offset + 4 <= len (_buf self) ->
   exists lo hi,
     _read_primitive self offset Types.uint16 = OK lo /\
     _read_primitive self (offset + 2) Types.uint16 = OK hi /\
     _read_primitive self offset Types.uint32 = OK (lo + 2 ^ 16 * hi)) /\
  (_offset self + offset + 8 <= len (_buf self) ->
   exists lo hi,
     _read_primitive self offset Types.uint32 = OK lo /\
     _read_primitive self (offset + 4) Types.uint32 = OK hi /\
     _read_primitive self offset Types.uint64 = OK (lo + 2 ^ 32 * hi)).
Proof.
  intros Hpos.
  repeat apply conj; intros Hfit; do 2 eexists;
    (split; [apply read_primitive_inside; cbn [calcsize]; lia |]);
    (split; [apply read_primitive_inside; cbn [calcsize]; lia |]);
    rewrite read_primitive_inside by (cbn [calcsize]; lia);
    cbn [decode calcsize]; f_equal;
    rewrite Z.add_assoc.
  - apply (read_unsigned_split (_buf self) (_offset self + offset) 1 1); lia.
  - apply (read_unsigned_split (_buf self) (_offset self + offset) 2 2); lia.
  - apply (read_unsigned_split (_buf self) (_offset self + offset) 4 4); lia.
Qed.

Lemma read_unsigned_halves_witness :
  exists lo hi,
    _read_primitive (blob_at msg_hi 0) 8 Types.uint8 = OK lo /\
    _read_primitive (blob_at msg_hi 0) (8 + 1) Types.uint8 = OK hi /\
    _read_primitive (blob_at msg_hi 0) 8 Types.uint16 = OK (lo + 2 ^ 8 * hi).
Proof.
  apply (proj1 (read_unsigned_halves (blob_at msg_hi 0) 8
                  ltac:(vm_compute; discriminate))).
  vm_compute. discriminate.
Defined.

(** ** Signed and unsigned reads *)

Lemma to_signed_mod (n u : Z) :
  0 < n -> 0 <= u < 2 ^ (8 * n) ->
  to_signed n u mod 2 ^ (8 * n) = u.
Proof.
  intros Hn Hu. unfold to_signed.
  destruct (Z.ltb_spec u (2 ^ (8 * n - 1))).
  - apply Z.mod_small. exact Hu.
  - replace (u - 2 ^ (8 * n)) with (u + (-1) * 2 ^ (8 * n)) by ring.
    rewrite Z.mod_add by lia. apply Z.mod_small. exact Hu.
Qed.

Lemma read_unsigned_of_signed (self : Blob) (offset : Z) (ts tu : Types.t)
    (n : Z) (v : value ts) :
  0 < n -> calcsize ts = n -> calcsize tu = n ->
  _read_primitive self offset ts = OK v ->
  let bs := window (_buf self)
              (py_position (_buf self) (_offset self + offset)) n in
  _read_primitive self offset tu = OK (decode tu bs) /\
  v = decode ts bs /\ 0 <= le_unsigned bs < 2 ^ (8 * n).
Proof.
  intros Hn Hts Htu Hv bs.
  apply read_primitive_OK_inv in Hv as [Hpos [Hfit ->]].
  rewrite Hts in Hfit. split; [| split].
  - unfold _read_primitive. rewrite unpack_from_at by (rewrite ?Htu; lia).
    rewrite Htu. reflexivity.
  - rewrite Hts. reflexivity.
  - apply window_unsigned_range; lia.
Qed.

(** X5. A signed read and the unsigned read of the same width at the same
    offset succeed together, and the signed value is the two's
    complement reading of the unsigned one: they agree modulo
    [2^(8 * width)]. *)
Theorem read_signed_of_unsigned (self : Blob) (offset : Z) (u : Z) :
  (_read_primitive self offset Types.uint8 = OK u ->
   _read_primitive self offset Types.int8 = OK (to_signed 1 u) /\
   to_signed 1 u mod 2 ^ 8 = u) /\
  (_read_primitive self offset Types.uint16 = OK u ->
   _read_primitive self offset Types.int16 = OK (to_signed 2 u) /\
   to_signed 2 u mod 2 ^ 16 = u) /\
  (_read_primitive self offset Types.uint32 = OK u ->
   _read_primitive self offset Types.int32 = OK (to_signed 4 u) /\
   to_signed 4 u mod 2 ^ 32 = u) /\
  (_read_primitive self offset Types.uint64 = OK u ->
   _read_primitive self offset Types.int64 = OK (to_signed 8 u) /\
   to_signed 8 u mod 2 ^ 64 = u) /\
  (forall s, _read_primitive self offset Types.int8 = OK s ->
     _read_primitive self offset Types.uint8 = OK (s mod 2 ^ 8)) /\
  (forall s, _read_primitive self offset Types.int16 = OK s ->
     _read_primitive self offset Types.uint16 = OK (s mod 2 ^ 16)) /\
  (forall s, _read_primitive self offset Types.int32 = OK s ->
     _read_primitive self offset Types.uint32 = OK (s mod 2 ^ 32)) /\
  (forall s, _read_primitive self offset Types.int64 = OK s ->
     _read_primitive self offset Types.uint64 = OK (s mod 2 ^ 64)).
Proof.
  split; [| split; [| split; [| split]]].
  1-4: intros Hu;
    apply read_primitive_OK_inv in Hu as [Hpos [Hfit ->]];
    cbn [decode calcsize] in *;
    (split;
     [ unfold _read_primitive; rewrite unpack_from_at by (cbn [calcsize]; lia);
       reflexivity |]).
  - apply (to_signed_mod 1); [lia |].
    apply (window_unsigned_range (_buf self) _ 1); lia.
  - apply (to_signed_mod 2); [lia |].
    apply (window_unsigned_range (_buf self) _ 2); lia.
  - apply (to_signed_mod 4); [lia |].
    apply (window_unsigned_range (_buf self) _ 4); lia.
  - apply (to_signed_mod 8); [lia |].
    apply (window_unsigned_range (_buf self) _ 8); lia.
  - repeat apply conj; intros s Hs.
    + destruct (read_unsigned_of_signed self offset Types.int8 Types.uint8 1 s
                  ltac:(lia) eq_refl eq_refl Hs) as [Hu [-> Hr]].
      rewrite Hu. cbn [decode]. rewrite (to_signed_mod 1) by lia. reflexivity.
    + destruct (read_unsigned_of_signed self offset Types.int16 Types.uint16 2 s
                  ltac:(lia) eq_refl eq_refl Hs) as [Hu [-> Hr]].
      rewrite Hu. cbn [decode]. rewrite (to_signed_mod 2) by lia. reflexivity.
    + destruct (read_unsigned_of_signed self offset Types.int32 Types.uint32 4 s
                  ltac:(lia) eq_refl eq_refl Hs) as [Hu [-> Hr]].
      rewrite Hu. cbn [decode]. rewrite (to_signed_mod 4) by lia. reflexivity.
    + destruct (read_unsigned_of_signed self offset Types.int64 Types.uint64 8 s
                  ltac:(lia) eq_refl eq_refl Hs) as [Hu [-> Hr]].
      rewrite Hu. cbn [decode]. rewrite (to_signed_mod 8) by lia. reflexivity.
Qed.

Lemma read_signed_of_unsigned_witness :
  _read_primitive (blob_at msg_empty_at_0 0) 8 Types.int32 = OK (-7) /\
  (-7) mod 2 ^ 32 = 4294967289.
Proof.
  apply (proj1 (proj2 (proj2 (read_signed_of_unsigned
           (blob_at msg_empty_at_0 0) 8 4294967289)))).
  vm_compute. reflexivity.
Defined.

(** ** Bit fields *)

Lemma land_pow2 (a k : Z) :
  0 <= k -> Z.land a (2 ^ k) = if Z.testbit a k then 2 ^ k else 0.
Proof.
  intros Hk. apply Z.bits_inj'. intros n Hn.
  rewrite Z.land_spec, Z.pow2_bits_eqb by exact Hk.
  destruct (Z.eqb_spec k n) as [-> | Hne].
  - destruct (Z.testbit a n) eqn:Ha.
    + rewrite Z.pow2_bits_eqb, Z.eqb_refl by exact Hn. reflexivity.
    + rewrite Z.bits_0. reflexivity.
  - rewrite andb_false_r.
    destruct (Z.testbit a k).
    + rewrite Z.pow2_bits_eqb by exact Hk.
      symmetry. apply Z.eqb_neq. exact Hne.
    + rewrite Z.bits_0. reflexivity.
Qed.

Lemma land_pow2_eqb (a k : Z) :
  0 <= k -> negb (Z.land a (2 ^ k) =? 0) = Z.testbit a k.
Proof.
  intros Hk. rewrite land_pow2 by exact Hk.
  destruct (Z.testbit a k); [| reflexivity].
  assert (0 < 2 ^ k) by (apply Z.pow_pos_nonneg; lia).
  destruct (Z.eqb_spec (2 ^ k) 0); [lia | reflexivity].
Qed.

(** The window of one byte inside the buffer is the byte at the position. *)
Lemma window_one (buf : buffer) (pos : Z) :
  0 <= pos -> pos + 1 <= len buf ->
  exists b, nth_error buf (Z.to_nat pos) = Some b /\ window buf pos 1 = [b].
Proof.
  intros Hpos Hfit.
  pose proof (window_length buf pos 1 Hpos ltac:(lia) Hfit) as Hlen.
  pose proof (window_nth_error buf pos 1 0 Hpos ltac:(simpl; lia)) as Hnth.
  destruct (window buf pos 1) as [| b [| c rest]]; try discriminate Hlen.
  exists b. rewrite Nat.add_0_r in Hnth. split; [symmetry; exact Hnth | reflexivity].
Qed.

(** X6. A bit read with the mask of bit [k] (the mask [1 << k] with
    [0 <= k < 8]) of a byte inside the buffer returns bit [k] of that
    byte; with the mask 0 it returns [False]; and when the byte is
    past the end of the buffer it raises [struct.error], or
    [OverflowError] from the position [2^63] on. *)
Theorem read_bit_of_byte (self : Blob) (offset : Z) :
  (0 <= _offset self + offset ->
   _offset self + offset + 1 <= len (_buf self) ->
   exists b,
     nth_error (_buf self) (Z.to_nat (_offset self + offset)) = Some b /\
     (forall k, 0 <= k < 8 ->
        _read_bit self offset (2 ^ k) = OK (Z.testbit (byte_val b) k)) /\
     _read_bit self offset 0 = OK false) /\
  (len (_buf self) < _offset self + offset + 1 ->
   forall bitmask,
     _read_bit self offset bitmask =
       Raise (if _offset self + offset <? 2 ^ 63
              then StructError else OverflowError)).
Proof.
  split.
  - intros Hpos Hfit.
    destruct (window_one (_buf self) (_offset self + offset) Hpos Hfit)
      as [b [Hnth Hwin]].
    assert (Hread : _read_primitive self offset Types.uint8 = OK (byte_val b)).
    { rewrite read_primitive_inside by (cbn [calcsize]; lia).
      cbn [decode calcsize]. rewrite Hwin. cbn [le_unsigned].
      rewrite Z.mul_0_r, Z.add_0_r. reflexivity. }
    exists b. split; [exact Hnth |]. split.
    + intros k Hk. unfold _read_bit. rewrite Hread. cbn [bind].
      rewrite land_pow2_eqb by lia. reflexivity.
    + unfold _read_bit. rewrite Hread. cbn [bind].
      rewrite Z.land_0_r. reflexivity.
  - intros Hover bitmask. unfold _read_bit, _read_primitive.
    rewrite unpack_from_overrun by (cbn [calcsize]; lia). reflexivity.
Qed.

Lemma read_bit_of_byte_witness :
  exists b,
    nth_error msg_hi (Z.to_nat (0 + 4)) = Some b /\
    (forall k, 0 <= k < 8 ->
       _read_bit (blob_at msg_hi 0) 4 (2 ^ k) = OK (Z.testbit (byte_val b) k)) /\
    _read_bit (blob_at msg_hi 0) 4 0 = OK false.
Proof.
  apply (proj1 (read_bit_of_byte (blob_at msg_hi 0) 4)).
  - vm_compute. discriminate.
  - vm_compute. discriminate.
Defined.

(** ** Null and non-null pointers *)

(** A pointer read that returns the word 0 has read eight zero bytes. *)
Lemma read_ptr_zero_bytes (self : Blob) (offset : Z) (p : ptr) :
  _read_ptr self offset = OK p -> word p = 0 ->
  let pos := py_position (_buf self) (_offset self + offset) in
  0 <= pos /\ window (_buf self) pos 8 = repeat x00 8.
Proof.
  intros H Hw pos. unfold _read_ptr in H.
  apply bind_inv in H as [w [Hread H]]. injection H as <-. simpl in Hw. subst w.
  apply read_primitive_OK_inv in Hread as [Hpos [Hfit Hdec]]. fold pos in Hpos, Hfit, Hdec.
  change (calcsize Types.int64) with 8 in *. cbn [decode] in Hdec.
  split; [exact Hpos |].
  set (bs := window (_buf self) pos 8) in *.
  assert (Hlen : length bs = 8%nat)
    by (unfold bs; rewrite window_length; [reflexivity | lia | lia | lia]).
  pose proof (le_unsigned_range bs) as Hu. rewrite Hlen in Hu.
  change (Z.of_nat 8) with 8 in Hu.
  assert (Hw0 : le_unsigned bs = 0)
    by (apply (proj1 (to_signed_zero 8 _ ltac:(lia) Hu)); symmetry; exact Hdec).
  apply (proj1 (le_unsigned_zero bs)) in Hw0. clear Hdec Hu.
  do 9 (destruct bs as [| ? bs]; try discriminate Hlen).
  repeat match goal with
         | H : Forall _ (_ :: _) |- _ => inversion H; subst; clear H
         end.
  reflexivity.
Qed.

(** X7. The generic pointer reader returns [None] on a pointer word of
    eight zero bytes, as the struct, list, text and data readers do. *)
Theorem follow_generic_null (self : Blob) (ptr_offset : Z) :
  let pos := py_position (_buf self) (_offset self + ptr_offset) in
  0 <= pos ->
  window (_buf self) pos 8 = repeat x00 8 ->
  _follow_generic_pointer self ptr_offset = OK None.
Proof.
  intros pos Hpos Hzero. unfold _follow_generic_pointer.
  rewrite (read_ptr_zero_word self ptr_offset Hpos Hzero). reflexivity.
Qed.

Lemma follow_generic_null_witness :
  _follow_generic_pointer (blob_at (msg_hi ++ repeat x00 8) 8) 8 = OK None.
Proof.
  apply (follow_generic_null (blob_at (msg_hi ++ repeat x00 8) 8) 8).
  - vm_compute. discriminate.
  - vm_compute. reflexivity.
Defined.

Section OnlyNullIsNone.

Variable follow : ptr -> Blob -> result (Z * ptr).

Lemma deref_ptrstruct_None_inv (self : Blob) (offset : Z) :
  _deref_ptrstruct follow self offset = OK None ->
  exists p, _read_ptr self offset = OK p /\ word p = 0.
Proof.
  unfold _deref_ptrstruct. intros H.
  apply bind_inv in H as [p [Hread H]]. exists p. split; [exact Hread |].
  destruct (Z.eqb_spec (word p) 0) as [Hz | Hnz]; [exact Hz |].
  apply bind_inv in H as [[o q] [_ H]]. cbv beta iota in H.
  apply bind_inv in H as [? [_ H]]. discriminate H.
Qed.

Lemma deref_ptrlist_None_inv (self : Blob) (offset : Z) :
  _deref_ptrlist follow self offset = OK None ->
  exists p, _read_ptr self offset = OK p /\ word p = 0.
Proof.
  unfold _deref_ptrlist. intros H.
  apply bind_inv in H as [p [Hread H]]. exists p. split; [exact Hread |].
  destruct (Z.eqb_spec (word p) 0) as [Hz | Hnz]; [exact Hz |].
  apply bind_inv in H as [[o q] [_ H]]. cbv beta iota in H.
  apply bind_inv in H as [? [_ H]].
  apply bind_inv in H as [? [_ H]]. discriminate H.
Qed.

(** X8. [None] stands for the null pointer only: when a struct, list,
    text, data or generic read returns [None], the pointer word it read
    is made of eight zero bytes.  No other pointer and no error is
    turned into [None]. *)
Theorem None_only_for_null (self : Blob) (offset : Z)
    (structcls listcls item_type : pyclass) :
  _read_struct follow self offset structcls = OK None \/
  _read_list follow self offset listcls item_type = OK None \/
  _read_string follow self offset = OK None \/
  _read_data follow self offset = OK None \/
  _follow_generic_pointer self offset = OK None ->
  let pos := py_position (_buf self) (_offset self + offset) in
  0 <= pos /\ window (_buf self) pos 8 = repeat x00 8.
Proof.
  intros H.
  assert (Hnull : exists p, _read_ptr self offset = OK p /\ word p = 0).
  { destruct H as [H | [H | [H | [H | H]]]].
    - unfold _read_struct in H. apply bind_inv in H as [so [Hd H]].
      destruct so as [so |].
      + apply bind_inv in H as [b [_ H]]. discriminate H.
      + apply deref_ptrstruct_None_inv. exact Hd.
    - unfold _read_list in H. apply bind_inv in H as [d [Hd H]].
      destruct d as [[[off tag] n] |].
      + apply bind_inv in H as [l [_ H]]. discriminate H.
      + apply deref_ptrlist_None_inv. exact Hd.
    - unfold _read_string in H. apply bind_inv in H as [d [Hd H]].
      destruct d as [[[off tag] n] |].
      + apply bind_inv in H as [? [_ H]]. discriminate H.
      + apply deref_ptrlist_None_inv. exact Hd.
    - unfold _read_data in H. apply bind_inv in H as [d [Hd H]].
      destruct d as [[[off tag] n] |].
      + apply bind_inv in H as [? [_ H]]. discriminate H.
      + apply deref_ptrlist_None_inv. exact Hd.
    - unfold _follow_generic_pointer in H.
      apply bind_inv in H as [p [Hread H]]. exists p. split; [exact Hread |].
      destruct (Z.eqb_spec (word p) 0) as [Hz | Hnz]; [exact Hz |].
      apply bind_inv in H as [q [_ H]].
      destruct (Ptr.kind q =? StructPtr.KIND).
      + apply bind_inv in H as [s [_ H]]. discriminate H.
      + destruct (Ptr.kind q =? ListPtr.KIND); [| discriminate H].
        apply bind_inv in H as [l [_ H]]. discriminate H. }
  destruct Hnull as [p [Hread Hz]].
  apply (read_ptr_zero_bytes self offset p Hread Hz).
Qed.

End OnlyNullIsNone.

Lemma None_only_for_null_witness :
  let pos := py_position (msg_hi ++ repeat x00 8) (8 + 8) in
  0 <= pos /\ window (msg_hi ++ repeat x00 8) pos 8 = repeat x00 8.
Proof.
  apply (None_only_for_null FarPtr_follow (blob_at (msg_hi ++ repeat x00 8) 8) 8
           "S"%string "List"%string "Blob"%string).
  left. vm_compute. reflexivity.
Defined.

(** ** Struct and list pointers *)

Section NearAndFar.

Variable follow : ptr -> Blob -> result (Z * ptr).

(** A non-null pointer that is not far is dereferenced where it stands. *)
Lemma deref_ptrstruct_near (self : Blob) (offset : Z) (p : ptr) :
  _read_ptr self offset = OK p -> word p <> 0 ->
  Ptr.kind p <> FarPtr.KIND ->
  _deref_ptrstruct follow self offset =
    (_ <- py_assert (Ptr.kind p =? StructPtr.KIND) kind_eq_StructPtr_KIND ;;
     OK (Some (Ptr.deref p offset))).
Proof.
  intros Hread Hnz Hnear. unfold _deref_ptrstruct.
  rewrite Hread. cbn [bind].
  rewrite (proj2 (Z.eqb_neq _ _) Hnz), (proj2 (Z.eqb_neq _ _) Hnear).
  reflexivity.
Qed.

Lemma deref_ptrlist_near (self : Blob) (offset : Z) (p : ptr) :
  _read_ptr self offset = OK p -> word p <> 0 ->
  Ptr.kind p <> FarPtr.KIND ->
  _deref_ptrlist follow self offset =
    (_ <- py_assert (Ptr.kind p =? ListPtr.KIND) kind_eq_ListPtr_KIND ;;
     q <- Ptr.specialize p ;;
     OK (Some (Ptr.deref q offset, ListPtr.size_tag q, ListPtr.item_count q))).
Proof.
  intros Hread Hnz Hnear. unfold _deref_ptrlist.
  rewrite Hread. cbn [bind].
  rewrite (proj2 (Z.eqb_neq _ _) Hnz), (proj2 (Z.eqb_neq _ _) Hnear).
  reflexivity.
Qed.

(** X9. A near struct pointer read at [offset] leads to the position
    [target = _offset + offset + (ptr.offset + 1) * 8].  When [target] is
    before the end of the buffer (it may even be negative) the struct
    read returns the accessor of class [structcls] at [target]; when
    [target] is at or after the end of the buffer, as for an empty
    struct placed at the very end of the message, the struct read fails
    on the assertion of [from_buffer]. *)
Theorem read_struct_near (self : Blob) (offset : Z) (p : ptr) (structcls : pyclass) :
  _read_ptr self offset = OK p -> word p <> 0 ->
  Ptr.kind p = StructPtr.KIND ->
  let target := _offset self + (offset + (Ptr.offset p + 1) * 8) in
  (target < len (_buf self) ->
   _read_struct follow self offset structcls =
     OK (Some {| cls := structcls; _buf := _buf self; _offset := target;
                 _segment_offsets := _segment_offsets self |})) /\
  (len (_buf self) <= target ->
   _read_struct follow self offset structcls =
     Raise (AssertionError offset_lt_len_buf)).
Proof.
  intros Hread Hnz Hkind target.
  assert (Hd : _deref_ptrstruct follow self offset =
               OK (Some (Ptr.deref p offset))).
  { rewrite (deref_ptrstruct_near self offset p Hread Hnz)
      by (rewrite Hkind; discriminate).
    rewrite Hkind. reflexivity. }
  unfold _read_struct. rewrite Hd. cbn [bind]. unfold Ptr.deref. fold target.
  split; intros Ht.
  - rewrite from_buffer_OK by exact Ht. reflexivity.
  - rewrite from_buffer_Raise by exact Ht. reflexivity.
Qed.

(** X10. A struct read of a non-null near pointer that is not a struct
    pointer (a list pointer or a pointer of the reserved kind) fails on
    the assertion [ptr.kind == StructPtr.KIND]: no accessor is built. *)
Theorem read_struct_wrong_kind (self : Blob) (offset : Z) (p : ptr)
    (structcls : pyclass) :
  _read_ptr self offset = OK p -> word p <> 0 ->
  Ptr.kind p <> FarPtr.KIND -> Ptr.kind p <> StructPtr.KIND ->
  _read_struct follow self offset structcls =
    Raise (AssertionError kind_eq_StructPtr_KIND).
Proof.
  intros Hread Hnz Hnear Hkind. unfold _read_struct.
  rewrite (deref_ptrstruct_near self offset p Hread Hnz Hnear).
  rewrite (py_assert_false _ _ (proj2 (Z.eqb_neq _ _) Hkind)). reflexivity.
Qed.

(** X11. A list, text or data read of a non-null near pointer that is
    not a list pointer (a non-null struct pointer or a pointer of the
    reserved kind) fails on the assertion [ptr.kind == ListPtr.KIND]. *)
Theorem read_list_wrong_kind (self : Blob) (offset : Z) (p : ptr)
    (listcls item_type : pyclass) :
  _read_ptr self offset = OK p -> word p <> 0 ->
  Ptr.kind p <> FarPtr.KIND -> Ptr.kind p <> ListPtr.KIND ->
  _read_list follow self offset listcls item_type =
    Raise (AssertionError kind_eq_ListPtr_KIND) /\
  _read_string follow self offset = Raise (AssertionError kind_eq_ListPtr_KIND) /\
  _read_data follow self offset = Raise (AssertionError kind_eq_ListPtr_KIND).
Proof.
  intros Hread Hnz Hnear Hkind.
  assert (Hd : _deref_ptrlist follow self offset =
               Raise (AssertionError kind_eq_ListPtr_KIND)).
  { rewrite (deref_ptrlist_near self offset p Hread Hnz Hnear).
    rewrite (py_assert_false _ _ (proj2 (Z.eqb_neq _ _) Hkind)). reflexivity. }
  unfold _read_list, _read_string, _read_data. rewrite Hd.
  repeat split.
Qed.

(** What the readers do with the answer of [follow] on a far pointer. *)
Lemma deref_ptrlist_far (self : Blob) (offset : Z) (p : ptr) :
  _read_ptr self offset = OK p ->
  Ptr.kind p = FarPtr.KIND ->
  _deref_ptrlist follow self offset =
    (op <- follow {| ptr_cls := FarPtr_; word := word p |} self ;;
     let (offset, p) := op : Z * ptr in
     _ <- py_assert (Ptr.kind p =? ListPtr.KIND) kind_eq_ListPtr_KIND ;;
     p <- Ptr.specialize p ;;
     let offset := Ptr.deref p offset in
     OK (Some (offset, ListPtr.size_tag p, ListPtr.item_count p))).
Proof.
  intros Hread Hkind. unfold _deref_ptrlist.
  rewrite Hread. cbn [bind].
  assert (Hnz : word p <> 0)
    by (apply kind_nonzero_word; rewrite Hkind; discriminate).
  rewrite (proj2 (Z.eqb_neq _ _) Hnz).
  rewrite Hkind. change (FarPtr.KIND =? FarPtr.KIND) with true. cbv iota.
  rewrite (specialize_far p Hkind). reflexivity.
Qed.

(** X12. A far pointer is followed once.  When the pointer that [follow]
    hands back is itself a far pointer, the struct read fails on the
    assertion [ptr.kind == StructPtr.KIND] and the list, text and data
    reads fail on the assertion [ptr.kind == ListPtr.KIND]; and an
    exception raised by [follow] is the exception of all four reads. *)
Theorem far_pointer_followed_once (self : Blob) (offset : Z) (p : ptr)
    (structcls listcls item_type : pyclass) :
  _read_ptr self offset = OK p ->
  Ptr.kind p = FarPtr.KIND ->
  (forall o q,
     follow {| ptr_cls := FarPtr_; word := word p |} self = OK (o, q) ->
     Ptr.kind q = FarPtr.KIND ->
     _read_struct follow self offset structcls =
       Raise (AssertionError kind_eq_StructPtr_KIND) /\
     _read_list follow self offset listcls item_type =
       Raise (AssertionError kind_eq_ListPtr_KIND) /\
     _read_string follow self offset = Raise (AssertionError kind_eq_ListPtr_KIND) /\
     _read_data follow self offset = Raise (AssertionError kind_eq_ListPtr_KIND)) /\
  (forall e,
     follow {| ptr_cls := FarPtr_; word := word p |} self = Raise e ->
     _read_struct follow self offset structcls = Raise e /\
     _read_list follow self offset listcls item_type = Raise e /\
     _read_string follow self offset = Raise e /\
     _read_data follow self offset = Raise e).
Proof.
  intros Hread Hkind.
  pose proof (deref_ptrstruct_far follow self offset p Hread Hkind) as Hs.
  pose proof (deref_ptrlist_far self offset p Hread Hkind) as Hl.
  split.
  - intros o q Hfollow Hq. rewrite Hfollow in Hs, Hl. cbn [bind] in Hs, Hl.
    rewrite Hq in Hs, Hl.
    unfold _read_struct, _read_list, _read_string, _read_data.
    rewrite Hs, Hl. repeat split.
  - intros e Hfollow. rewrite Hfollow in Hs, Hl. cbn [bind] in Hs, Hl.
    unfold _read_struct, _read_list, _read_string, _read_data.
    rewrite Hs, Hl. repeat split.
Qed.

End NearAndFar.

Lemma read_struct_near_witness :
  _read_struct FarPtr_follow (blob_at msg_far 0) 8 "S"%string =
    OK (Some {| cls := "S"%string; _buf := msg_far; _offset := 16;
                _segment_offsets := [0] |}) /\
  _read_struct FarPtr_follow (blob_at (firstn 16 msg_far) 0) 8 "S"%string =
    Raise (AssertionError offset_lt_len_buf).
Proof.
  split.
  - apply (proj1 (read_struct_near FarPtr_follow (blob_at msg_far 0) 8
                    {| ptr_cls := Ptr_; word := 4294967296 |} "S"%string
                    ltac:(vm_compute; reflexivity) ltac:(discriminate)
                    ltac:(vm_compute; reflexivity))).
    vm_compute. reflexivity.
  - apply (proj2 (read_struct_near FarPtr_follow
                    (blob_at (firstn 16 msg_far) 0) 8
                    {| ptr_cls := Ptr_; word := 4294967296 |} "S"%string
                    ltac:(vm_compute; reflexivity) ltac:(discriminate)
                    ltac:(vm_compute; reflexivity))).
    vm_compute. discriminate.
Defined.

Lemma read_struct_wrong_kind_witness :
  _read_struct FarPtr_follow (blob_at msg_hi 0) 0 "S"%string =
    Raise (AssertionError kind_eq_StructPtr_KIND).
Proof.
  apply (read_struct_wrong_kind FarPtr_follow (blob_at msg_hi 0) 0
           {| ptr_cls := Ptr_; word := 111669149697 |} "S"%string).
  - vm_compute. reflexivity.
  - discriminate.
  - vm_compute. discriminate.
  - vm_compute. discriminate.
Defined.

Lemma read_list_wrong_kind_witness :
  _read_list FarPtr_follow (blob_at msg_far 0) 8 "List"%string "Blob"%string =
    Raise (AssertionError kind_eq_ListPtr_KIND) /\
  _read_string FarPtr_follow (blob_at msg_far 0) 8 =
    Raise (AssertionError kind_eq_ListPtr_KIND) /\
  _read_data FarPtr_follow (blob_at msg_far 0) 8 =
    Raise (AssertionError kind_eq_ListPtr_KIND).
Proof.
  apply (read_list_wrong_kind FarPtr_follow (blob_at msg_far 0) 8
           {| ptr_cls := Ptr_; word := 4294967296 |}).
  - vm_compute. reflexivity.
  - discriminate.
  - vm_compute. discriminate.
  - vm_compute. discriminate.
Defined.

Lemma far_pointer_followed_once_witness :
  _read_struct FarPtr_follow (blob_at msg_far_far 0) 0 "S"%string =
    Raise (AssertionError kind_eq_StructPtr_KIND) /\
  _read_list FarPtr_follow (blob_at msg_far_far 0) 0 "List"%string "Blob"%string =
    Raise (AssertionError kind_eq_ListPtr_KIND) /\
  _read_string FarPtr_follow (blob_at msg_far_far 0) 0 =
    Raise (AssertionError kind_eq_ListPtr_KIND) /\
  _read_data FarPtr_follow (blob_at msg_far_far 0) 0 =
    Raise (AssertionError kind_eq_ListPtr_KIND).
Proof.
  apply (proj1 (far_pointer_followed_once FarPtr_follow
                  (blob_at msg_far_far 0) 0 {| ptr_cls := Ptr_; word := 10 |}
                  "S"%string "List"%string "Blob"%string
                  ltac:(vm_compute; reflexivity) ltac:(vm_compute; reflexivity))
           8 {| ptr_cls := Ptr_; word := 18 |}).
  - vm_compute. reflexivity.
  - vm_compute. reflexivity.
Defined.

(** ** Reads through derived accessors *)

Section NestedReads.

Variable follow : ptr -> Blob -> result (Z * ptr).

(** X13. Reading a field of the struct returned by a struct read is
    reading the enclosing accessor at the shifted offset: for the struct
    offset [so] computed by [_deref_ptrstruct], the nested accessor is at
    [_offset + so], and a primitive, bit, enum or generic pointer read at
    [o] on it reads the same bytes of the same buffer as the read at
    [so + o] on the enclosing accessor. *)
Theorem nested_struct_reads (self b : Blob) (offset : Z) (structcls : pyclass) :
  _read_struct follow self offset structcls = OK (Some b) ->
  exists so,
    _deref_ptrstruct follow self offset = OK (Some so) /\
    _offset b = _offset self + so /\
    _offset b < len (_buf self) /\
    (forall o t, _read_primitive b o t = _read_primitive self (so + o) t) /\
    (forall o m, _read_bit b o m = _read_bit self (so + o) m) /\
    (forall o e, _read_enum b o e = _read_enum self (so + o) e) /\
    (forall o, _read_ptr b o = _read_ptr self (so + o)).
Proof.
  unfold _read_struct. intros H.
  apply bind_inv in H as [d [Hd H]]. destruct d as [so |]; [| discriminate H].
  apply bind_inv in H as [b0 [Hb H]]. injection H as <-.
  apply from_buffer_inv in Hb as [Hlt ->].
  exists so. split; [exact Hd |]. cbn [_offset _buf].
  split; [reflexivity |]. split; [exact Hlt |].
  assert (Hprim : forall o t,
            _read_primitive
              {| cls := structcls; _buf := _buf self; _offset := _offset self + so;
                 _segment_offsets := _segment_offsets self |} o t
            = _read_primitive self (so + o) t).
  { intros o t. unfold _read_primitive. cbn [_offset _buf].
    rewrite Z.add_assoc. reflexivity. }
  repeat split.
  - exact Hprim.
  - intros o m. unfold _read_bit. rewrite Hprim. reflexivity.
  - intros o e. unfold _read_enum. rewrite Hprim. reflexivity.
  - intros o. unfold _read_ptr. rewrite Hprim. reflexivity.
Qed.

End NestedReads.

Lemma nested_struct_reads_witness :
  exists so,
    _deref_ptrstruct FarPtr_follow (blob_at msg_far 0) 8 = OK (Some so) /\
    16 = 0 + so /\
    16 < len msg_far /\
    (forall o t, _read_primitive (blob_at msg_far 16) o t
                 = _read_primitive (blob_at msg_far 0) (so + o) t) /\
    (forall o m, _read_bit (blob_at msg_far 16) o m
                 = _read_bit (blob_at msg_far 0) (so + o) m) /\
    (forall o e, _read_enum (blob_at msg_far 16) o e
                 = _read_enum (blob_at msg_far 0) (so + o) e) /\
    (forall o, _read_ptr (blob_at msg_far 16) o
               = _read_ptr (blob_at msg_far 0) (so + o)).
Proof.
  apply (nested_struct_reads FarPtr_follow (blob_at msg_far 0)
           (blob_at msg_far 16) 8 "Blob"%string).
  vm_compute. reflexivity.
Defined.

(** ** The invariant of accessors *)

Lemma derived_offset (follow : ptr -> Blob -> result (Z * ptr)) (self b : Blob) :
  derived follow self b -> _offset b < len (_buf b).
Proof.
  intros [offset structcls b' H | offset listcls item_type l H
         | groupcls b' H | ptr_offset s H | ptr_offset l H].
  - unfold _read_struct in H. apply bind_inv in H as [so [_ H]].
    destruct so as [so |]; [| discriminate H].
    apply bind_inv in H as [b0 [Hb H]]. injection H as <-.
    apply from_buffer_inv in Hb as [Hlt ->]. exact Hlt.
  - unfold _read_list in H. apply bind_inv in H as [d [_ H]].
    destruct d as [[[off tag] n] |]; [| discriminate H].
    apply bind_inv in H as [l0 [Hl H]]. injection H as <-.
    unfold List_from_buffer in Hl. apply bind_inv in Hl as [b0 [Hb Hl]].
    injection Hl as <-. apply from_buffer_inv in Hb as [Hlt ->]. exact Hlt.
  - unfold _read_group in H. apply from_buffer_inv in H as [Hlt ->]. exact Hlt.
  - unfold _follow_generic_pointer in H.
    apply bind_inv in H as [p [_ H]].
    destruct (word p =? 0); [discriminate H |].
    apply bind_inv in H as [q [_ H]].
    destruct (Ptr.kind q =? StructPtr.KIND).
    + apply bind_inv in H as [s0 [Hs H]]. injection H as <-.
      unfold from_buffer_and_size in Hs. apply bind_inv in Hs as [b0 [Hb Hs]].
      injection Hs as <-. apply from_buffer_inv in Hb as [Hlt ->]. exact Hlt.
    + destruct (Ptr.kind q =? ListPtr.KIND); [| discriminate H].
      apply bind_inv in H as [l0 [_ H]]. discriminate H.
  - unfold _follow_generic_pointer in H.
    apply bind_inv in H as [p [_ H]].
    destruct (word p =? 0); [discriminate H |].
    apply bind_inv in H as [q [_ H]].
    destruct (Ptr.kind q =? StructPtr.KIND).
    + apply bind_inv in H as [s0 [_ H]]. discriminate H.
    + destruct (Ptr.kind q =? ListPtr.KIND); [| discriminate H].
      apply bind_inv in H as [l0 [Hl H]]. injection H as <-.
      unfold List_from_buffer in Hl. apply bind_inv in Hl as [b0 [Hb Hl]].
      injection Hl as <-. apply from_buffer_inv in Hb as [Hlt ->]. exact Hlt.
Qed.

(** X14. Every accessor reached from a root accessor built by
    [from_buffer], through any chain of struct, list, group and generic
    pointer reads, keeps the invariant that [from_buffer] asserts: its
    offset is before the end of its buffer, and its buffer and segment
    table are the ones the root was built from. *)
Theorem reachable_accessor_invariant
    (follow : ptr -> Blob -> result (Z * ptr))
    (c : pyclass) (buf : buffer) (offset : Z) (segs : list Z) (root b : Blob) :
  from_buffer c buf offset segs = OK root ->
  clos_refl_trans Blob (derived follow) root b ->
  _offset b < len buf /\ _buf b = buf /\ _segment_offsets b = segs.
Proof.
  intros Hroot Hreach.
  apply from_buffer_inv in Hroot as [Hlt ->].
  pose proof (reachable_same_buffer_and_segments follow _ b Hreach) as [Hb Hs].
  cbn [_buf _segment_offsets] in Hb, Hs.
  split; [| split; assumption].
  rewrite <- Hb. clear Hb Hs.
  apply clos_rt_rtn1 in Hreach.
  destruct Hreach as [| y z Hstep _].
  - exact Hlt.
  - apply (derived_offset follow y z Hstep).
Qed.

Lemma reachable_accessor_invariant_witness :
  _offset (blob_at msg_far 16) < len msg_far /\
  _buf (blob_at msg_far 16) = msg_far /\
  _segment_offsets (blob_at msg_far 16) = [0].
Proof.
  apply (reachable_accessor_invariant FarPtr_follow "Blob"%string msg_far 0 [0]
           (blob_at msg_far 0) (blob_at msg_far 16)).
  - vm_compute. reflexivity.
  - apply rt_trans with (y := blob_at msg_far 16).
    + apply rt_step.
      apply (derived_struct FarPtr_follow (blob_at msg_far 0) 0 "Blob"%string).
      vm_compute. reflexivity.
    + apply rt_step.
      apply (derived_group FarPtr_follow (blob_at msg_far 16) "Blob"%string).
      vm_compute. reflexivity.
Defined.

(** ** Reads through a group *)

(** X15. A group of an accessor built by [from_buffer] reads what the
    accessor reads: the group read succeeds, and every primitive, bit,
    enum, pointer, generic pointer and nested group read on the group
    has the result of the same read on the enclosing accessor. *)
Theorem group_reads_as_enclosing (c : pyclass) (buf : buffer) (offset : Z)
    (segs : list Z) (self : Blob) (groupcls : pyclass) :
  from_buffer c buf offset segs = OK self ->
  exists g,
    _read_group self groupcls = OK g /\
    (forall o t, _read_primitive g o t = _read_primitive self o t) /\
    (forall o m, _read_bit g o m = _read_bit self o m) /\
    (forall o e, _read_enum g o e = _read_enum self o e) /\
    (forall o, _read_ptr g o = _read_ptr self o) /\
    (forall o, _follow_generic_pointer g o = _follow_generic_pointer self o) /\
    (forall c', _read_group g c' = _read_group self c').
Proof.
  intros Hself. apply from_buffer_inv in Hself as [Hlt ->].
  eexists. split.
  - unfold _read_group. cbn [_buf _offset _segment_offsets].
    apply from_buffer_OK. exact Hlt.
  - repeat split.
Qed.

Lemma group_reads_as_enclosing_witness :
  exists g,
    _read_group (blob_at msg_hi 0) "Group"%string = OK g /\
    (forall o t, _read_primitive g o t = _read_primitive (blob_at msg_hi 0) o t) /\
    (forall o m, _read_bit g o m = _read_bit (blob_at msg_hi 0) o m) /\
    (forall o e, _read_enum g o e = _read_enum (blob_at msg_hi 0) o e) /\
    (forall o, _read_ptr g o = _read_ptr (blob_at msg_hi 0) o) /\
    (forall o, _follow_generic_pointer g o
               = _follow_generic_pointer (blob_at msg_hi 0) o) /\
    (forall c', _read_group g c' = _read_group (blob_at msg_hi 0) c').
Proof.
  apply (group_reads_as_enclosing "Blob"%string msg_hi 0 [0] (blob_at msg_hi 0)
           "Group"%string).
  vm_compute. reflexivity.
Defined.

(** ** Text and data at the edges of the buffer *)

(** A slice from a position that is not negative, of a length that is
    not negative, is the window there: it is cut at the end of the
    buffer. *)
Lemma py_slice_window (buf : buffer) (start n : Z) :
  0 <= start -> 0 <= n -> py_slice buf start (start + n) = window buf start n.
Proof.
  intros Hs Hn. unfold py_slice, window, slice_index.
  pose proof (len_nonneg buf) as HL. unfold len in *.
  destruct (Z.ltb_spec start 0) as [Hneg | _]; [lia |].
  destruct (Z.ltb_spec (start + n) 0) as [Hneg | _]; [lia |].
  destruct (Z_le_gt_dec (start + n) (Z.of_nat (length buf))) as [Hin | Hout].
  - rewrite !Z.min_l by lia. f_equal. lia.
  - destruct (Z_le_gt_dec start (Z.of_nat (length buf))) as [Hs_in | Hs_out].
    + rewrite (Z.min_l start) by lia. rewrite Z.min_r by lia.
      rewrite !firstn_all2; [reflexivity | |]; rewrite length_skipn; lia.
    + rewrite !Z.min_r by lia.
      rewrite !(skipn_all2 buf) by lia. rewrite !firstn_nil. reflexivity.
Qed.

Lemma window_length_clipped (buf : buffer) (pos n : Z) :
  0 <= pos -> 0 <= n ->
  Z.of_nat (length (window buf pos n)) = Z.min n (Z.max 0 (len buf - pos)).
Proof.
  intros Hpos Hn. unfold window, len.
  rewrite length_firstn, length_skipn. lia.
Qed.

(** A slice that starts at or after the end of the buffer is empty. *)
Lemma py_slice_past_end (buf : buffer) (start stop : Z) :
  len buf <= start -> py_slice buf start stop = [].
Proof.
  intros Hs. unfold py_slice.
  pose proof (len_nonneg buf) as HL.
  assert (E : slice_index (len buf) start = len buf).
  { unfold slice_index. destruct (Z.ltb_spec start 0); lia. }
  assert (B : slice_index (len buf) stop <= len buf).
  { unfold slice_index. destruct (Z.ltb_spec stop 0); lia. }
  rewrite E. replace (Z.to_nat _) with 0%nat by lia. reflexivity.
Qed.

Section TextAndDataEdges.

Variable follow : ptr -> Blob -> result (Z * ptr).

(** X16. A list body that runs over the end of the buffer is not an
    error for the text and data reads: for a list of one-byte elements
    with count [n] whose body starts at a position [start >= 0], the data
    read returns the bytes of the body that are in the buffer,
    [min n (max 0 (len(buf) - start))] of them, and for [n >= 1] the
    text read returns the first [n - 1] bytes of what the data read
    returns. *)
Theorem text_and_data_cut_at_end (self : Blob) (offset off n : Z) :
  _deref_ptrlist follow self offset = OK (Some (off, ListPtr.SIZE_8, n)) ->
  0 <= _offset self + off -> 0 <= n ->
  let data := window (_buf self) (_offset self + off) n in
  _read_data follow self offset = OK (Some data) /\
  Z.of_nat (length data) = Z.min n (Z.max 0 (len (_buf self) - (_offset self + off))) /\
  (1 <= n ->
   _read_string follow self offset = OK (Some (firstn (Z.to_nat (n - 1)) data))).
Proof.
  intros Hd Hstart Hn data. split; [| split].
  - rewrite (read_data_list follow self offset off n Hd).
    rewrite py_slice_window by assumption. reflexivity.
  - apply window_length_clipped; assumption.
  - intros Hn1. rewrite (read_string_list follow self offset off n Hd).
    replace (_offset self + off + n - 1) with (_offset self + off + (n - 1)) by lia.
    rewrite py_slice_window by lia. do 2 f_equal.
    unfold data, window. rewrite firstn_firstn. f_equal. lia.
Qed.

(** X17. A list of one-byte elements whose body starts at or after the
    end of the buffer, as the empty list that ends a message does: the
    text and data reads return the empty byte sequence, whereas the list
    read of the same pointer fails on the assertion of [from_buffer]. *)
Theorem list_body_at_end_of_buffer (self : Blob) (offset off n : Z)
    (listcls item_type : pyclass) :
  _deref_ptrlist follow self offset = OK (Some (off, ListPtr.SIZE_8, n)) ->
  len (_buf self) <= _offset self + off ->
  _read_string follow self offset = OK (Some []) /\
  _read_data follow self offset = OK (Some []) /\
  _read_list follow self offset listcls item_type =
    Raise (AssertionError offset_lt_len_buf).
Proof.
  intros Hd Hend. split; [| split].
  - rewrite (read_string_list follow self offset off n Hd).
    rewrite py_slice_past_end by exact Hend. reflexivity.
  - rewrite (read_data_list follow self offset off n Hd).
    rewrite py_slice_past_end by exact Hend. reflexivity.
  - unfold _read_list. rewrite Hd. cbn [bind]. unfold List_from_buffer.
    rewrite from_buffer_Raise by exact Hend. reflexivity.
Qed.

(** X18. A list of one-byte elements with a raw element count of 0: the
    data read returns the empty byte sequence, and so does the text read
    unless the list body starts at byte 0 of the buffer. *)
Theorem empty_list_reads_empty (self : Blob) (offset off : Z) :
  _deref_ptrlist follow self offset = OK (Some (off, ListPtr.SIZE_8, 0)) ->
  _read_data follow self offset = OK (Some []) /\
  (_offset self + off <> 0 -> _read_string follow self offset = OK (Some [])).
Proof.
  intros Hd. split.
  - apply (read_data_empty_list follow self offset off Hd).
  - apply (read_string_empty_list follow self offset off Hd).
Qed.

End TextAndDataEdges.

Lemma text_and_data_cut_at_end_witness :
  _read_data FarPtr_follow (blob_at msg_truncated 0) 0 = OK (Some [x68]) /\
  Z.of_nat (length [x68]) = Z.min 3 (Z.max 0 (len msg_truncated - (0 + 8))) /\
  (1 <= 3 ->
   _read_string FarPtr_follow (blob_at msg_truncated 0) 0 = OK (Some [x68])).
Proof.
  apply (text_and_data_cut_at_end FarPtr_follow (blob_at msg_truncated 0) 0 8 3).
  - vm_compute. reflexivity.
  - vm_compute. discriminate.
  - lia.
Defined.

Lemma list_body_at_end_of_buffer_witness :
  _read_string FarPtr_follow (blob_at msg_empty_list_at_end 0) 8 = OK (Some []) /\
  _read_data FarPtr_follow (blob_at msg_empty_list_at_end 0) 8 = OK (Some []) /\
  _read_list FarPtr_follow (blob_at msg_empty_list_at_end 0) 8
    "List"%string "Blob"%string = Raise (AssertionError offset_lt_len_buf).
Proof.
  apply (list_body_at_end_of_buffer FarPtr_follow
           (blob_at msg_empty_list_at_end 0) 8 16 0).
  - vm_compute. reflexivity.
  - vm_compute. discriminate.
Defined.

Lemma empty_list_reads_empty_witness :
  _read_data FarPtr_follow (blob_at msg_empty_list 0) 0 = OK (Some []) /\
  _read_string FarPtr_follow (blob_at msg_empty_list 0) 0 = OK (Some []).
Proof.
  destruct (empty_list_reads_empty FarPtr_follow (blob_at msg_empty_list 0) 0 8)
    as [Hdata Htext].
  - vm_compute. reflexivity.
  - split; [exact Hdata |]. apply Htext. vm_compute. discriminate.
Defined.

(** X19. The text and data reads return bytes of the buffer only: the
    byte sequence they return is a contiguous part of the buffer,
    whatever the offset and the count of the list pointer are. *)
Theorem text_and_data_are_parts_of_buffer
    (follow : ptr -> Blob -> result (Z * ptr)) (self : Blob) (offset : Z)
    (bs : buffer) :
  _read_string follow self offset = OK (Some bs) \/
  _read_data follow self offset = OK (Some bs) ->
  exists before after, _buf self = before ++ bs ++ after.
Proof.
  assert (Hslice : forall start stop,
            exists before after,
              _buf self = before ++ py_slice (_buf self) start stop ++ after).
  { intros start stop. unfold py_slice.
    set (m := Z.to_nat (slice_index (len (_buf self)) start)).
    set (k := Z.to_nat _).
    exists (firstn m (_buf self)), (skipn k (skipn m (_buf self))).
    rewrite (firstn_skipn k (skipn m (_buf self))).
    rewrite (firstn_skipn m (_buf self)). reflexivity. }
  intros [H | H].
  - unfold _read_string in H. apply bind_inv in H as [d [_ H]].
    destruct d as [[[off tag] n] |]; [| discriminate H].
    apply bind_inv in H as [? [_ H]]. injection H as <-. apply Hslice.
  - unfold _read_data in H. apply bind_inv in H as [d [_ H]].
    destruct d as [[[off tag] n] |]; [| discriminate H].
    apply bind_inv in H as [? [_ H]]. injection H as <-. apply Hslice.
Qed.

Lemma text_and_data_are_parts_of_buffer_witness :
  exists before after, msg_hi = before ++ [x68; x69] ++ after.
Proof.
  apply (text_and_data_are_parts_of_buffer FarPtr_follow (blob_at msg_hi 0) 0
           [x68; x69]).
  left. vm_compute. reflexivity.
Defined.

(** ** The generic reader and the typed readers *)

(** X20. The generic pointer reader does not follow far pointers: on
    every far pointer it fails on its last assertion, whatever the far
    pointer leads to. *)
Theorem follow_generic_rejects_far (self : Blob) (ptr_offset : Z) (p : ptr) :
  _read_ptr self ptr_offset = OK p ->
  Ptr.kind p = FarPtr.KIND ->
  _follow_generic_pointer self ptr_offset =
    Raise (AssertionError unknown_pointer_kind).
Proof. apply follow_generic_far. Qed.

Lemma follow_generic_rejects_far_witness :
  _follow_generic_pointer (blob_at msg_far_far 0) 8 =
    Raise (AssertionError unknown_pointer_kind).
Proof.
  apply (follow_generic_rejects_far (blob_at msg_far_far 0) 8
           {| ptr_cls := Ptr_; word := 18 |}).
  - vm_compute. reflexivity.
  - vm_compute. reflexivity.
Defined.

Lemma specialize_inv (p q : ptr) :
  Ptr.specialize p = OK q ->
  word q = word p /\ Ptr.kind q = Ptr.kind p /\
  (Ptr.kind p <> FarPtr.KIND -> ptr_cls q <> FarPtr_).
Proof.
  unfold Ptr.specialize.
  destruct (Z.eqb_spec (Ptr.kind p) StructPtr.KIND) as [Hs | Hs].
  - intros [= <-]. repeat split. discriminate.
  - destruct (Z.eqb_spec (Ptr.kind p) ListPtr.KIND) as [Hl | Hl].
    + intros [= <-]. repeat split. discriminate.
    + destruct (Z.eqb_spec (Ptr.kind p) FarPtr.KIND) as [Hf | Hf].
      * intros [= <-]. repeat split. intros Hnf. contradiction.
      * discriminate.
Qed.

(** The offset of a pointer that is not of the far class is read from
    the word alone. *)
Lemma deref_near_class (p q : ptr) (offset : Z) :
  word q = word p -> ptr_cls p <> FarPtr_ -> ptr_cls q <> FarPtr_ ->
  Ptr.deref q offset = Ptr.deref p offset.
Proof.
  intros Hw Hp Hq. unfold Ptr.deref, Ptr.offset. rewrite Hw.
  destruct (ptr_cls p), (ptr_cls q); try reflexivity; contradiction.
Qed.

Lemma read_ptr_inv (self : Blob) (offset : Z) (p : ptr) :
  _read_ptr self offset = OK p -> ptr_cls p = Ptr_.
Proof.
  unfold _read_ptr. intros H. apply bind_inv in H as [w [_ H]].
  injection H as <-. reflexivity.
Qed.

(** X21. The generic reader and the typed readers agree on near
    pointers: where the generic reader returns a struct, the struct
    read returns the accessor at the same offset; where it returns a
    list, the list read returns the list at the same offset with the
    same size tag and item count. *)
Theorem generic_agrees_with_typed
    (follow : ptr -> Blob -> result (Z * ptr)) (self : Blob) (offset : Z) :
  (forall s structcls,
     _follow_generic_pointer self offset = OK (Some (GStruct s)) ->
     _read_struct follow self offset structcls =
       OK (Some {| cls := structcls; _buf := _buf self;
                   _offset := _offset (struct_blob s);
                   _segment_offsets := _segment_offsets self |})) /\
  (forall l listcls item_type,
     _follow_generic_pointer self offset = OK (Some (GList l)) ->
     _read_list follow self offset listcls item_type =
       OK (Some {| list_blob :=
                     {| cls := listcls; _buf := _buf self;
                        _offset := _offset (list_blob l);
                        _segment_offsets := _segment_offsets self |};
                   _size_tag := _size_tag l; _item_count := _item_count l;
                   _item_type := item_type |})).
Proof.
  split.
  - intros s structcls H. unfold _follow_generic_pointer in H.
    apply bind_inv in H as [p [Hread H]].
    destruct (Z.eqb_spec (word p) 0) as [Hz | Hnz]; [discriminate H |].
    apply bind_inv in H as [q [Hq H]].
    apply specialize_inv in Hq as [Hw [Hk Hcls]].
    destruct (Z.eqb_spec (Ptr.kind q) StructPtr.KIND) as [Hs | Hs].
    + apply bind_inv in H as [s0 [Hs0 H]]. injection H as <-.
      unfold from_buffer_and_size in Hs0.
      apply bind_inv in Hs0 as [b [Hb Hs0]]. injection Hs0 as <-.
      apply from_buffer_inv in Hb as [Hlt ->]. cbn [struct_blob _offset].
      rewrite Hk in Hs.
      assert (Hnf : Ptr.kind p <> FarPtr.KIND) by (rewrite Hs; discriminate).
      unfold _read_struct.
      rewrite (deref_ptrstruct_near follow self offset p Hread Hnz Hnf).
      rewrite Hs. cbn [bind py_assert]. change (StructPtr.KIND =? StructPtr.KIND) with true.
      cbn [bind py_assert].
      rewrite (deref_near_class p q offset Hw) in Hlt |- *;
        try (apply Hcls; exact Hnf);
        try (rewrite (read_ptr_inv self offset p Hread); discriminate).
      rewrite from_buffer_OK by exact Hlt. reflexivity.
    + destruct (Ptr.kind q =? ListPtr.KIND); [| discriminate H].
      apply bind_inv in H as [l0 [_ H]]. discriminate H.
  - intros l listcls item_type H. unfold _follow_generic_pointer in H.
    apply bind_inv in H as [p [Hread H]].
    destruct (Z.eqb_spec (word p) 0) as [Hz | Hnz]; [discriminate H |].
    apply bind_inv in H as [q [Hq H]].
    pose proof Hq as Hspec.
    apply specialize_inv in Hq as [Hw [Hk Hcls]].
    destruct (Z.eqb_spec (Ptr.kind q) StructPtr.KIND) as [Hs | Hs].
    + apply bind_inv in H as [s0 [_ H]]. discriminate H.
    + destruct (Z.eqb_spec (Ptr.kind q) ListPtr.KIND) as [Hl | Hl];
        [| discriminate H].
      apply bind_inv in H as [l0 [Hl0 H]]. injection H as <-.
      unfold List_from_buffer in Hl0.
      apply bind_inv in Hl0 as [b [Hb Hl0]]. injection Hl0 as <-.
      apply from_buffer_inv in Hb as [Hlt ->].
      cbn [list_blob _offset _size_tag _item_count].
      rewrite Hk in Hl.
      assert (Hnf : Ptr.kind p <> FarPtr.KIND) by (rewrite Hl; discriminate).
      unfold _read_list.
      rewrite (deref_ptrlist_near follow self offset p Hread Hnz Hnf).
      rewrite Hl. change (ListPtr.KIND =? ListPtr.KIND) with true.
      cbn [bind py_assert]. rewrite Hspec. cbn [bind].
      unfold List_from_buffer.
      rewrite from_buffer_OK by exact Hlt. reflexivity.
Qed.

Lemma generic_agrees_with_typed_witness :
  _read_struct FarPtr_follow (blob_at msg_far 0) 8 "S"%string =
    OK (Some {| cls := "S"%string; _buf := msg_far; _offset := 16;
                _segment_offsets := [0] |}).
Proof.
  apply (proj1 (generic_agrees_with_typed FarPtr_follow (blob_at msg_far 0) 8)
           {| struct_blob :=
                {| cls := "GenericStruct"%string; _buf := msg_far;
                   _offset := 16; _segment_offsets := [0] |};
              _data_size := 1; _ptrs_size := 0 |} "S"%string).
  vm_compute. reflexivity.
Defined.
